(** * Session handling of the video-platform backend

    A shallow embedding of the Express application of this repository:
    the user controller (src/controllers/user.controller.js), the
    JWT-check middleware (src/middlewares/auth.middleware.js), the user
    router (src/routes/user.route.js), [asyncHandler] and the
    application stack of src/app.js.

    Conventions of the embedding.
    - A JavaScript value that is a string or [undefined] is an
      [option string]; truthiness and [||] are written out.  A string
      is a sequence of code units below 256.  The requests of [Request]
      are those whose cookies and body fields are strings; where the
      code itself settles what happens to a value of another JSON type,
      the handler is also written for every body ([registerUser_json]).
    - The MongoDB collections are lists of documents, in the scan order
      of the collection.
    - A controller is a function of the clock (whole seconds, as
      jsonwebtoken reads it) and of the request, in a monad that threads
      the database and carries a thrown error.  [asyncHandler] turns a
      rejected promise into [next(err)]; that is the [Throw] outcome.
    - What the controllers call but this repository does not define
      (jsonwebtoken, bcrypt, cloudinary, the file system, mongoose's
      document creation and the methods of the user schema) is the
      class [Platform]. *)

From stdpp Require Import gmap strings list.
From Stdlib Require Import DecimalString.
From Stdlib Require QArith.

Local Open Scope string_scope.
Local Open Scope list_scope.
Local Open Scope nat_scope.

(** ** JavaScript strings *)

(** [!v] is false exactly for a non-empty string. *)
Definition truthy (v : option string) : bool :=
  match v with
  | Some s => negb (String.eqb s "")
  | None => false
  end.

(** [a || b] *)
Definition js_or (a b : option string) : option string :=
  if truthy a then a else b.

(** [a || d] where [d] is a string literal. *)
Definition js_or_default (a : option string) (d : string) : string :=
  match a with
  | Some s => if String.eqb s "" then d else s
  | None => d
  end.

(** [s.replace(pat, rep)] with a string pattern: the first occurrence. *)
Fixpoint js_replace (pat rep s : string) : string :=
  if String.prefix pat s
  then rep +:+ String.substring (String.length pat) (String.length s - String.length pat) s
  else match s with
       | EmptyString => EmptyString
       | String c s' => String c (js_replace pat rep s')
       end.

(** White space and line terminators among the code units below 256. *)
Definition is_white_space (c : Ascii.ascii) : bool :=
  let n := Ascii.nat_of_ascii c in
  ((9 <=? n) && (n <=? 13)) || (n =? 32) || (n =? 160).

Fixpoint trim_start (s : string) : string :=
  match s with
  | String c s' => if is_white_space c then trim_start s' else s
  | EmptyString => EmptyString
  end.

Fixpoint string_rev_acc (s acc : string) : string :=
  match s with
  | EmptyString => acc
  | String c s' => string_rev_acc s' (String c acc)
  end.

Definition string_rev (s : string) : string := string_rev_acc s EmptyString.

(** [s.trim()] *)
Definition js_trim (s : string) : string :=
  string_rev (trim_start (string_rev (trim_start s))).

(** [c.toLowerCase()] on a code unit below 256. *)
Definition lower_char (c : Ascii.ascii) : Ascii.ascii :=
  let n := Ascii.nat_of_ascii c in
  if ((65 <=? n) && (n <=? 90))
     || ((192 <=? n) && (n <=? 222) && negb (n =? 215))
  then Ascii.ascii_of_nat (n + 32) else c.

Fixpoint toLowerCase (s : string) : string :=
  match s with
  | EmptyString => EmptyString
  | String c s' => String (lower_char c) (toLowerCase s')
  end.

(** ** Errors *)

(** An error value of the runtime or of a library: it has a name and a
    message and no [statusCode]. *)
Record JsError := { err_name : string; err_message : string }.

(** What a handler can throw: an [ApiError(statusCode, message)] of
    utils/ApiError.js, which only the code of the repository
    constructs, or an error that comes from elsewhere. *)
Inductive Exn :=
| ApiError (statusCode : nat) (message : string)
| Native (e : JsError).

Definition type_error (msg : string) : JsError :=
  {| err_name := "TypeError"; err_message := msg |}.

Definition TypeError (msg : string) : Exn := Native (type_error msg).

(** [err.message] *)
Definition exn_message (e : Exn) : string :=
  match e with
  | ApiError _ m => m
  | Native e => err_message e
  end.

(** [err.statusCode] *)
Definition exn_statusCode (e : Exn) : option nat :=
  match e with
  | ApiError c _ => Some c
  | Native _ => None
  end.

#[global] Instance JsError_eq_dec : EqDecision JsError.
Proof. solve_decision. Defined.

#[global] Instance Exn_eq_dec : EqDecision Exn.
Proof. solve_decision. Defined.

(** ** Documents *)

(** The fields of a user document that the handlers read or write.
    The stored documents also carry [createdAt], [updatedAt] and [__v],
    which mongoose maintains and no handler reads; they are left out,
    and what is said below of a record is said of the fields listed
    here. *)
Record User := {
  user_id : string;
  username : string;
  email : string;
  fullName : string;
  avatar : string;
  coverImage : string;
  password : string;
  refreshToken : option string;
  watchHistory : list string
}.

(** A user document read with [.select("-password -refreshToken")]. *)
Record PublicUser := {
  pub_id : string;
  pub_username : string;
  pub_email : string;
  pub_fullName : string;
  pub_avatar : string;
  pub_coverImage : string;
  pub_watchHistory : list string
}.

Definition select_public (u : User) : PublicUser :=
  {| pub_id := user_id u; pub_username := username u; pub_email := email u;
     pub_fullName := fullName u; pub_avatar := avatar u;
     pub_coverImage := coverImage u; pub_watchHistory := watchHistory u |}.

Record Video := {
  video_id : string;
  video_owner : string;
  video_title : string
}.

Record DB := {
  users : list User;
  videos : list Video
}.

#[global] Instance User_eq_dec : EqDecision User.
Proof. solve_decision. Defined.

#[global] Instance PublicUser_eq_dec : EqDecision PublicUser.
Proof. solve_decision. Defined.

#[global] Instance Video_eq_dec : EqDecision Video.
Proof. solve_decision. Defined.

#[global] Instance DB_eq_dec : EqDecision DB.
Proof. solve_decision. Defined.

Definition set_refreshToken (t : option string) (u : User) : User :=
  {| user_id := user_id u; username := username u; email := email u;
     fullName := fullName u; avatar := avatar u; coverImage := coverImage u;
     password := password u; refreshToken := t;
     watchHistory := watchHistory u |}.

Definition set_users (l : list User) (db : DB) : DB :=
  {| users := l; videos := videos db |}.

(** ** The handler monad: database threading and thrown errors *)

Inductive Outcome (A : Type) : Type :=
| Return (a : A)
| Throw (e : Exn).

Arguments Return {A} a.
Arguments Throw {A} e.

Definition M (A : Type) : Type := DB -> Outcome A * DB.

Definition ret {A} (a : A) : M A := fun db => (Return a, db).

Definition throw {A} (e : Exn) : M A := fun db => (Throw e, db).

Definition bind {A B} (m : M A) (k : A -> M B) : M B :=
  fun db =>
    match m db with
    | (Return a, db') => k a db'
    | (Throw e, db') => (Throw e, db')
    end.

(** [try { m } catch (error) { h error }]: what [m] wrote to the
    database before it threw stays written. *)
Definition try_catch {A} (m : M A) (h : Exn -> M A) : M A :=
  fun db =>
    match m db with
    | (Return a, db') => (Return a, db')
    | (Throw e, db') => h e db'
    end.

(** A read of the database. *)
Definition query {A} (f : DB -> A) : M A := fun db => (Return (f db), db).

(** A write to the database. *)
Definition modify (f : DB -> DB) : M unit := fun db => (Return tt, f db).

(** A library call that returns or throws. *)
Definition lift {A} (r : JsError + A) : M A :=
  match r with
  | inl e => throw (Native e)
  | inr a => ret a
  end.

Notation "'let*' x ':=' m 'in' k" := (bind m (fun x => k))
  (at level 10, x name, m at level 100, k at level 200, only parsing).
Notation "'let*' ' pat ':=' m 'in' k" :=
  (bind m (fun x => match x with pat => k end))
  (at level 10, pat pattern, m at level 100, k at level 200, only parsing).

(** ** Requests and responses *)

(** A file stored by multer's disk storage. *)
Record File := {
  file_originalname : string;
  file_path : string
}.

(** The request as the handlers find it, after express.json,
    express.urlencoded, cookieParser and multer have filled it in:
    [req.cookies] and [req.body] are objects whose values are strings.
    Header names are in lower case, as [req.header] looks them up. *)
Record Request := {
  req_cookies : gmap string string;
  req_body : gmap string string;
  req_headers : gmap string string;
  req_files : option (gmap string (list File));
  req_user : option PublicUser
}.

Definition set_req_user (u : PublicUser) (req : Request) : Request :=
  {| req_cookies := req_cookies req; req_body := req_body req;
     req_headers := req_headers req; req_files := req_files req;
     req_user := Some u |}.

(** The user of a video, after [$project: {fullName, username, avatar}]. *)
Record OwnerInfo := {
  owner_id : string;
  owner_fullName : string;
  owner_username : string;
  owner_avatar : string
}.

(** A video of the watch history, with its [owner] field replaced. *)
Record WatchedVideo := {
  wv_id : string;
  wv_title : string;
  wv_owner : option OwnerInfo
}.

(** The [data] of the [ApiResponse] of each controller. *)
Inductive Data :=
| D_createdUser (u : PublicUser)
| D_loggedIn (user : option PublicUser) (accessToken refreshToken : string)
| D_refreshed (accessToken refreshToken : string)
| D_loggedOut
| D_watchHistory (l : list WatchedVideo).

(** The class of utils/ApiResponse.js, as the notes of the repository
    quote it; [sucess] is its spelling. *)
Record ApiResponse := {
  statusCode : nat;
  data : Data;
  message : string;
  sucess : bool
}.

(** [new ApiResponse(statusCode, data, message)] *)
Definition new_ApiResponse (statusCode : nat) (data : Data) (message : string)
  : ApiResponse :=
  {| statusCode := statusCode; data := data; message := message;
     sucess := statusCode <? 400 |}.

Inductive Body :=
| B_ApiResponse (r : ApiResponse)
| B_errorShape (success : bool) (message : string) (statusCode : nat)
| B_html.

Record Cookie := {
  cookie_name : string;
  cookie_value : string;
  httpOnly : bool;
  secure : bool
}.

Record Response := {
  res_status : nat;
  res_cookies : list Cookie;
  res_cleared : list string;
  res_body : Body
}.

(** [const options = { httpOnly: true, secure: true }] *)
Definition cookie_with_options (name value : string) : Cookie :=
  {| cookie_name := name; cookie_value := value;
     httpOnly := true; secure := true |}.

(** ** What the controllers call and the repository does not define *)

Inductive Secret := ACCESS_TOKEN_SECRET | REFRESH_TOKEN_SECRET.

(** The decoded token; [decodedToken?._id] may be missing. *)
Record Payload := { payload_id : option string }.

(** [response] of cloudinary's uploader. *)
Record CloudinaryResponse := { cloud_url : option string }.

(** The argument of [User.create]. *)
Record NewUser := {
  new_fullName : option string;
  new_avatar : option string;
  new_coverImage : string;
  new_email : option string;
  new_password : option string;
  new_username : string
}.

(** The clock argument is [Math.floor(Date.now() / 1000)].  A library
    call returns ([inr]) or throws an error of its own ([inl]). *)
Class Platform := {
  (** [user.generateAccessToken()] of the user schema *)
  generateAccessToken : User -> N -> JsError + string;
  (** [user.generateRefreshToken()] of the user schema *)
  generateRefreshToken : User -> N -> JsError + string;
  (** [jwt.verify(token, process.env.<secret>)] *)
  jwt_verify : Secret -> string -> N -> JsError + Payload;
  (** [user.isPasswordCorrect(password)] of the user schema *)
  isPasswordCorrect : User -> option string -> JsError + bool;
  (** [cloudinary.uploader.upload(path, ...)]; [None] when it throws *)
  cloudinary_upload : string -> option CloudinaryResponse;
  (** [fs.unlinkSync(path)]; [Some e] when it throws *)
  fs_unlinkSync : string -> option JsError;
  (** [process.cwd()], an absolute path *)
  process_cwd : string;
  (** [User.create(doc)] *)
  User_create : NewUser -> DB -> (JsError + User) * DB
}.

(** ** The user model *)

Definition has_id (id : string) (u : User) : bool :=
  bool_decide (user_id u = id).

(** [User.findById(id)]; mongoose answers [null] to an undefined id. *)
Definition User_findById (id : option string) (db : DB) : option User :=
  match id with
  | Some i => List.find (has_id i) (users db)
  | None => None
  end.

(** The filter [{ $or: [{ username }, { email }] }]: a clause whose
    value is undefined matches no stored user. *)
Definition or_username_email (uname mail : option string) (u : User) : bool :=
  bool_decide (uname = Some (username u)) || bool_decide (mail = Some (email u)).

(** [User.findOne(filter)]: the first document that matches. *)
Definition User_findOne (filter : User -> bool) (db : DB) : option User :=
  List.find filter (users db).

(** An update of the first document that matches. *)
Fixpoint updateOne (filter : User -> bool) (f : User -> User) (l : list User)
  : list User :=
  match l with
  | [] => []
  | u :: l' => if filter u then f u :: l' else u :: updateOne filter f l'
  end.

Definition User_updateById (id : string) (f : User -> User) : M unit :=
  modify (fun db => set_users (updateOne (has_id id) f (users db)) db).

Section Controllers.
Context {P : Platform}.

(** ** generateAccessAndRefereshTokens *)

Definition generateAccessAndRefereshTokens (now : N) (userId : string)
  : M (string * string) :=
  try_catch
    (let* user := query (User_findById (Some userId)) in
     match user with
     | None => throw (TypeError "Cannot read properties of null")
     | Some user =>
         let* accessToken := lift (generateAccessToken user now) in
         let* refreshToken := lift (generateRefreshToken user now) in
         (* user.refreshToken = refreshToken; user.save(...) *)
         let* _ := User_updateById (user_id user)
                (set_refreshToken (Some refreshToken)) in
         ret (accessToken, refreshToken)
     end)
    (fun _ =>
       throw (ApiError 500
         "Something went wrong while generating referesh and access token")).

(** ** loginUser *)

Definition loginUser (now : N) (req : Request) : M Response :=
  let email := req_body req !! "email" in
  let username := req_body req !! "username" in
  let password := req_body req !! "password" in
  if negb (truthy username) && negb (truthy email)
  then throw (ApiError 400 "username or email is required")
  else
    let* user := query (User_findOne (or_username_email username email)) in
    match user with
    | None =>
        (* console.log(user._id) comes before the check of [user] *)
        throw (TypeError "Cannot read properties of null (reading '_id')")
    | Some user =>
        let* isPasswordValid := lift (isPasswordCorrect user password) in
        if negb isPasswordValid
        then throw (ApiError 401
                      "Invalid user credentials, Wrong Password!!!!!!")
        else
          let* '(accessToken, refreshToken) :=
            generateAccessAndRefereshTokens now (user_id user) in
          let* loggedInUser := query (User_findById (Some (user_id user))) in
          ret {| res_status := 200;
                 res_cookies :=
                   [cookie_with_options "accessToken" accessToken;
                    cookie_with_options "refreshToken" refreshToken];
                 res_cleared := [];
                 res_body := B_ApiResponse
                   (new_ApiResponse 200
                      (D_loggedIn (select_public <$> loggedInUser)
                                  accessToken refreshToken)
                      "User logged In Successfully") |}
    end.

(** ** logoutUser *)

Definition logoutUser (req : Request) : M Response :=
  match req_user req with
  | None => throw (TypeError "Cannot read properties of undefined (reading '_id')")
  | Some user =>
      (* findByIdAndUpdate(req.user._id, { $unset: { refreshToken: 1 } }) *)
      let* _ := User_updateById (pub_id user) (set_refreshToken None) in
      ret {| res_status := 200;
             res_cookies := [];
             res_cleared := ["accessToken"; "refreshToken"];
             res_body := B_ApiResponse
               (new_ApiResponse 200 D_loggedOut "User logged Out") |}
  end.

(** ** refreshAccessToken *)

(** [req.cookies.refreshToken || req.body.refreshToken] *)
Definition incomingRefreshToken (req : Request) : option string :=
  js_or (req_cookies req !! "refreshToken") (req_body req !! "refreshToken").

Definition refreshAccessToken (now : N) (req : Request) : M Response :=
  match incomingRefreshToken req with
  | Some token =>
      if negb (truthy (Some token))
      then throw (ApiError 401 "unauthorized request")
      else
        try_catch
          (let* decodedToken := lift (jwt_verify REFRESH_TOKEN_SECRET token now) in
           let* user := query (User_findById (payload_id decodedToken)) in
           match user with
           | None => throw (ApiError 401 "Invalid refresh token")
           | Some user =>
               if negb (bool_decide (Some token = refreshToken user))
               then throw (ApiError 401 "Refresh token is expired or used")
               else
                 let* '(accessToken, newRefreshToken) :=
                   generateAccessAndRefereshTokens now (user_id user) in
                 ret {| res_status := 200;
                        res_cookies :=
                          [cookie_with_options "accessToken" accessToken;
                           cookie_with_options "refreshToken" newRefreshToken];
                        res_cleared := [];
                        res_body := B_ApiResponse
                          (new_ApiResponse 200
                             (D_refreshed accessToken newRefreshToken)
                             "Access token refreshed") |}
           end)
          (fun error =>
             throw (ApiError 401
                      (js_or_default (Some (exn_message error))
                                     "Invalid refresh token")))
  | None => throw (ApiError 401 "unauthorized request")
  end.

(** ** verifyJWT (auth.middleware.js) *)

(** [req.cookies?.accessToken ||
     req.header("Authorization")?.replace("Bearer ", "")] *)
Definition accessTokenOf (req : Request) : option string :=
  js_or (req_cookies req !! "accessToken")
        (js_replace "Bearer " "" <$> (req_headers req !! "authorization")).

(** The value returned is the request handed to [next()], with
    [req.user] set. *)
Definition verifyJWT (now : N) (req : Request) : M Request :=
  try_catch
    (match accessTokenOf req with
     | Some token =>
         if negb (truthy (Some token))
         then throw (ApiError 401 "Unauthorized request")
         else
           let* decodedToken :=
             lift (jwt_verify ACCESS_TOKEN_SECRET token now) in
           let* user := query (User_findById (payload_id decodedToken)) in
           match user with
           | None => throw (ApiError 401 "Invalid Access Token")
           | Some user => ret (set_req_user (select_public user) req)
           end
     | None => throw (ApiError 401 "Unauthorized request")
     end)
    (fun error =>
       throw (ApiError 401
                (js_or_default (Some (exn_message error))
                               "Invalid access token"))).

(** ** registerUser *)

(** [field?.trim() === ""] *)
Definition field_is_blank (field : option string) : bool :=
  match field with
  | Some s => String.eqb (js_trim s) ""
  | None => false
  end.

(** [req.files && Array.isArray(req.files[name]) &&
     req.files[name].length > 0 ? req.files[name][0].path : null] *)
Definition first_file_path (req : Request) (name : string) : option string :=
  match req_files req with
  | Some files =>
      match files !! name with
      | Some (f :: _) => Some (file_path f)
      | _ => None
      end
  | None => None
  end.

(** Node's [path.resolve] with one argument, on a POSIX system. *)
Fixpoint split_on (sep : Ascii.ascii) (s : string) : list string :=
  match s with
  | EmptyString => [EmptyString]
  | String c s' =>
      if Ascii.eqb c sep then EmptyString :: split_on sep s'
      else match split_on sep s' with
           | seg :: rest => String c seg :: rest
           | [] => [String c EmptyString]
           end
  end.

Definition slash : Ascii.ascii := Ascii.ascii_of_nat 47.

(** One step of [normalizeString]; the stack is in reverse order. *)
Definition push_segment (stack : list string) (seg : string) : list string :=
  if String.eqb seg "" || String.eqb seg "." then stack
  else if String.eqb seg ".." then tail stack
  else seg :: stack.

Definition normalize_segments (segs : list string) : list string :=
  rev (fold_left push_segment segs []).

Definition path_resolve (cwd : string) (p : option string) : JsError + string :=
  match p with
  | None =>
      inl (type_error "The 'paths[0]' argument must be of type string")
  | Some p =>
      let full := if String.prefix "/" p then p else cwd +:+ "/" +:+ p in
      inr ("/" +:+ String.concat "/" (normalize_segments (split_on slash full)))
  end.

(** [uploadOnCloudinary] of utils/cloudinary.js *)
Definition uploadOnCloudinary (localFilePath : string)
  : M (option CloudinaryResponse) :=
  if negb (truthy (Some localFilePath)) then ret None
  else match cloudinary_upload localFilePath with
       | Some response => ret (Some response)
       | None =>
           match fs_unlinkSync localFilePath with
           | Some e => throw (Native e)
           | None => ret None
           end
       end.

Definition create_user (doc : NewUser) : M User :=
  fun db =>
    match User_create doc db with
    | (inl e, db') => (Throw (Native e), db')
    | (inr u, db') => (Return u, db')
    end.

Definition registerUser (req : Request) : M Response :=
  let fullName := req_body req !! "fullName" in
  let email := req_body req !! "email" in
  let username := req_body req !! "username" in
  let password := req_body req !! "password" in
  if existsb field_is_blank [fullName; email; username; password]
  then throw (ApiError 400 "All fields are required")
  else
    let* existedUser :=
      query (User_findOne (or_username_email username email)) in
    match existedUser with
    | Some _ =>
        throw (ApiError 409 "User with email or username already exists")
    | None =>
        let avatarFilePath := first_file_path req "avatar" in
        let* absoluteAvatarPath :=
          lift (path_resolve process_cwd avatarFilePath) in
        let coverImageLocalPath := first_file_path req "coverImage" in
        let* absoluteCoverImagePath :=
          lift (path_resolve process_cwd coverImageLocalPath) in
        if negb (truthy (Some absoluteAvatarPath))
        then throw (ApiError 400 "Avatar file path is required")
        else
          let* avatar := uploadOnCloudinary absoluteAvatarPath in
          let* coverImage := uploadOnCloudinary absoluteCoverImagePath in
          match avatar with
          | None => throw (ApiError 400 "Avatar file is not uploaded")
          | Some avatar =>
              match username with
              | None =>
                  throw (TypeError
                    "Cannot read properties of undefined (reading 'toLowerCase')")
              | Some username =>
                  let* user := create_user
                    {| new_fullName := fullName;
                       new_avatar := cloud_url avatar;
                       new_coverImage :=
                         js_or_default (coverImage ≫= cloud_url) "";
                       new_email := email;
                       new_password := password;
                       new_username := toLowerCase username |} in
                  let* createdUser :=
                    query (User_findById (Some (user_id user))) in
                  match createdUser with
                  | None =>
                      throw (ApiError 500
                        "Something went wrong while registering the user")
                  | Some createdUser =>
                      ret {| res_status := 201;
                             res_cookies := [];
                             res_cleared := [];
                             res_body := B_ApiResponse
                               (new_ApiResponse 200
                                  (D_createdUser (select_public createdUser))
                                  "User registered Successfully") |}
                  end
              end
          end
    end.

(** ** getWatchHistory *)

(** [$project: { fullName: 1, username: 1, avatar: 1 }] keeps [_id]. *)
Definition project_owner (u : User) : OwnerInfo :=
  {| owner_id := user_id u; owner_fullName := fullName u;
     owner_username := username u; owner_avatar := avatar u |}.

(** The inner [$lookup] from "users" on [owner], then [$first]. *)
Definition lookup_owner (db : DB) (v : Video) : option OwnerInfo :=
  head (project_owner <$> filter (fun u => user_id u = video_owner v) (users db)).

Definition video_pipeline (db : DB) (v : Video) : WatchedVideo :=
  {| wv_id := video_id v; wv_title := video_title v;
     wv_owner := lookup_owner db v |}.

(** [$lookup] from "videos" with [localField: "watchHistory"] and
    [foreignField: "_id"]: the videos of the collection whose [_id] is
    an element of the array, as the scan of the collection meets them
    (the order of the array plays no part, and a video is joined once),
    each put through the pipeline. *)
Definition lookup_watchHistory (db : DB) (u : User) : list WatchedVideo :=
  video_pipeline db <$> filter (fun v => video_id v ∈ watchHistory u) (videos db).

(** [User.aggregate([{ $match: { _id } }, { $lookup: ... }])] *)
Definition aggregate_watchHistory (id : string) (db : DB)
  : list (list WatchedVideo) :=
  lookup_watchHistory db <$> filter (fun u => user_id u = id) (users db).

Definition getWatchHistory (req : Request) : M Response :=
  match req_user req with
  | None =>
      throw (TypeError "Cannot read properties of undefined (reading '_id')")
  | Some user =>
      let* result := query (aggregate_watchHistory (pub_id user)) in
      match result with
      | [] =>
          throw (TypeError
            "Cannot read properties of undefined (reading 'watchHistory')")
      | watchHistory :: _ =>
          ret {| res_status := 200;
                 res_cookies := [];
                 res_cleared := [];
                 res_body := B_ApiResponse
                   (new_ApiResponse 200 (D_watchHistory watchHistory)
                      "Watch history fetched successfully") |}
      end
  end.

End Controllers.

(** ** The user router (routes/user.route.js) *)

Inductive Method := GET | POST | PATCH.

#[global] Instance Method_eq_dec : EqDecision Method.
Proof. solve_decision. Defined.

Inductive Handler :=
| h_upload_fields (names : list string)
| h_upload_single (name : string)
| h_verifyJWT
| h_registerUser
| h_loginUser
| h_logoutUser
| h_refreshAccessToken
| h_changeCurrentPassword
| h_getCurrentUser
| h_updateAccountDetails
| h_updateUserAvatar
| h_updateUserCoverImage
| h_getUserChannelProfile
| h_getWatchHistory.

#[global] Instance Handler_eq_dec : EqDecision Handler.
Proof. solve_decision. Defined.

(** [router.route(path).<method>(...handlers)] *)
Record Route := {
  route_path : string;
  route_method : Method;
  route_stack : list Handler
}.

#[global] Instance Route_eq_dec : EqDecision Route.
Proof. solve_decision. Defined.

Definition router : list Route :=
  [ {| route_path := "/register"; route_method := POST;
       route_stack := [h_upload_fields ["avatar"; "coverImage"];
                       h_registerUser] |};
    {| route_path := "/login"; route_method := POST;
       route_stack := [h_loginUser] |};
    {| route_path := "/logout"; route_method := POST;
       route_stack := [h_verifyJWT; h_logoutUser] |};
    {| route_path := "/refresh-token"; route_method := POST;
       route_stack := [h_refreshAccessToken] |};
    {| route_path := "/change-password"; route_method := POST;
       route_stack := [h_verifyJWT; h_changeCurrentPassword] |};
    {| route_path := "/current-user"; route_method := GET;
       route_stack := [h_verifyJWT; h_getCurrentUser] |};
    {| route_path := "/update-account"; route_method := PATCH;
       route_stack := [h_verifyJWT; h_updateAccountDetails] |};
    {| route_path := "/avatar"; route_method := PATCH;
       route_stack := [h_verifyJWT; h_upload_single "avatar";
                       h_updateUserAvatar] |};
    {| route_path := "/cover-image"; route_method := PATCH;
       route_stack := [h_verifyJWT; h_upload_single "coverImage";
                       h_updateUserCoverImage] |};
    {| route_path := "/c/:username"; route_method := GET;
       route_stack := [h_verifyJWT; h_getUserChannelProfile] |};
    {| route_path := "/history"; route_method := GET;
       route_stack := [h_verifyJWT; h_getWatchHistory] |} ].

(** The routes without [verifyJWT]: registration and login come before
    any session, and a refresh is authenticated by the refresh token it
    carries. *)
Definition public_paths : list string :=
  ["/register"; "/login"; "/refresh-token"].

(** A route is guarded when [verifyJWT] is the first of its handlers. *)
Definition guarded (r : Route) : Prop := head (route_stack r) = Some h_verifyJWT.

(** ** Dispatch, as Express does it *)

(** What Express sees of a handler: a call of [next()], a call of
    [next(err)], or the response sent. *)
Inductive Step :=
| Next (req : Request)
| NextError (err : Exn)
| Send (res : Response).

Definition segments (path : string) : list string :=
  filter (fun s => s ≠ "") (split_on slash path).

(** A pattern segment [:name] takes any segment; routing is not case
    sensitive. *)
Definition segment_matches (pat seg : string) : bool :=
  String.prefix ":" pat || String.eqb (toLowerCase pat) (toLowerCase seg).

Fixpoint segments_match (pats segs : list string) : bool :=
  match pats, segs with
  | [], [] => true
  | p :: ps, s :: ss => segment_matches p s && segments_match ps ss
  | _, _ => false
  end.

(** The segments left after a mount prefix, when the path is under it. *)
Fixpoint strip_prefix (prefix segs : list string) : option (list string) :=
  match prefix, segs with
  | [], _ => Some segs
  | p :: ps, s :: ss =>
      if String.eqb (toLowerCase p) (toLowerCase s) then strip_prefix ps ss
      else None
  | _ :: _, [] => None
  end.

Definition route_matches (r : Route) (method : Method) (segs : list string)
  : bool :=
  bool_decide (route_method r = method)
  && segments_match (segments (route_path r)) segs.

Record HttpRequest := {
  http_method : Method;
  http_path : string;
  http_request : Request
}.

(** [app.use(...)].  A [Use] layer is one that has done its work when
    a handler sees the request (the parsers) or that passes the request
    on: express.static does so for every request that is not a GET or
    HEAD for a file under ./public.  What [handle] says below is about
    the requests that reach the router or fall through every layer. *)
Inductive Layer :=
| Use (name : string)
| UseError
| Mount (prefix : string) (routes : list Route).

(** The stack of app.js, in the order of its [app.use] calls. *)
Definition app : list Layer :=
  [ Use "cors"; Use "express.json"; Use "express.urlencoded";
    Use "express.static"; Use "cookieParser";
    UseError;
    Mount "/api/v1/users/" router ].

(** [err.statusCode || 500] *)
Definition statusCode_or_500 (err : Exn) : nat :=
  match exn_statusCode err with
  | Some 0 | None => 500
  | Some c => c
  end.

(** The error middleware of app.js: [(err, req, res, next) => ...] *)
Definition errorMiddleware (err : Exn) : Response :=
  let statusCode := statusCode_or_500 err in
  let message := js_or_default (Some (exn_message err)) "Internal Server Error" in
  {| res_status := statusCode;
     res_cookies := [];
     res_cleared := [];
     res_body := B_errorShape false message statusCode |}.

(** What Express answers when its stack is exhausted (finalhandler): a
    page of HTML, with the status of the error when that is an error
    status, 500 for another error, 404 without an error. *)
Definition finalhandler (pending : option Exn) : Response :=
  {| res_status :=
       match pending with
       | Some err =>
           match exn_statusCode err with
           | Some c => if (400 <=? c) && (c <=? 599) then c else 500
           | None => 500
           end
       | None => 404
       end;
     res_cookies := [];
     res_cleared := [];
     res_body := B_html |}.

Section Dispatch.
Context {P : Platform}.

(** The controllers that no property below depends on. *)
Variable other_controller : Handler -> N -> Request -> M Step.

(** [asyncHandler(requestHandler)] of utils/asyncHandler.js:
    [Promise.resolve(requestHandler(req, res, next))
       .catch((err) => next(err))]. *)
Definition asyncHandler (requestHandler : M Step) (db : DB) : Step * DB :=
  match requestHandler db with
  | (Return step, db') => (step, db')
  | (Throw err, db') => (NextError err, db')
  end.

(** A controller ends by sending its response. *)
Definition sends (m : M Response) : M Step :=
  let* res := m in ret (Send res).

(** A middleware ends by calling [next()]. *)
Definition calls_next (m : M Request) : M Step :=
  let* req := m in ret (Next req).

(** The handlers as the route file and the modules export them.
    multer has filled [req.files] before the request reaches the
    model. *)
Definition run_handler (h : Handler) (now : N) (req : Request) (db : DB)
  : Step * DB :=
  match h with
  | h_upload_fields _ | h_upload_single _ => (Next req, db)
  | h_verifyJWT => asyncHandler (calls_next (verifyJWT now req)) db
  | h_registerUser => asyncHandler (sends (registerUser req)) db
  | h_loginUser => asyncHandler (sends (loginUser now req)) db
  | h_logoutUser => asyncHandler (sends (logoutUser req)) db
  | h_refreshAccessToken => asyncHandler (sends (refreshAccessToken now req)) db
  | h_getWatchHistory => asyncHandler (sends (getWatchHistory req)) db
  | _ => asyncHandler (other_controller h now req) db
  end.

(** The handlers of one route, in order; [next(err)] leaves the route. *)
Fixpoint run_stack (hs : list Handler) (now : N) (req : Request) (db : DB)
  : Step * DB :=
  match hs with
  | [] => (Next req, db)
  | h :: hs' =>
      match run_handler h now req db with
      | (Next req', db') => run_stack hs' now req' db'
      | (NextError err, db') => (NextError err, db')
      | (Send res, db') => (Send res, db')
      end
  end.

(** The routes of a router, in order: the first that matches and does
    not fall through decides; no route is entered with an error
    pending. *)
Fixpoint run_routes (routes : list Route) (method : Method)
    (segs : list string) (now : N) (req : Request) (db : DB) : Step * DB :=
  match routes with
  | [] => (Next req, db)
  | r :: routes' =>
      if route_matches r method segs
      then
        match run_stack (route_stack r) now req db with
        | (Next req', db') => run_routes routes' method segs now req' db'
        | (NextError err, db') => (NextError err, db')
        | (Send res, db') => (Send res, db')
        end
      else run_routes routes' method segs now req db
  end.

(** The layers of the application from some index on.  With an error
    pending only an error middleware is entered; without one it is
    skipped.  Express never goes back in the stack. *)
Fixpoint run_layers (layers : list Layer) (pending : option Exn)
    (method : Method) (path : string) (now : N) (req : Request) (db : DB)
  : Response * DB :=
  match layers with
  | [] => (finalhandler pending, db)
  | Use _ :: layers' => run_layers layers' pending method path now req db
  | UseError :: layers' =>
      match pending with
      | Some err => (errorMiddleware err, db)
      | None => run_layers layers' pending method path now req db
      end
  | Mount prefix routes :: layers' =>
      match pending with
      | Some _ => run_layers layers' pending method path now req db
      | None =>
          match strip_prefix (segments prefix) (segments path) with
          | None => run_layers layers' pending method path now req db
          | Some segs =>
              match run_routes routes method segs now req db with
              | (Send res, db') => (res, db')
              | (Next req', db') =>
                  run_layers layers' None method path now req' db'
              | (NextError err, db') =>
                  run_layers layers' (Some err) method path now req db'
              end
          end
      end
  end.

Definition handle (r : HttpRequest) (now : N) (db : DB) : Response * DB :=
  run_layers app None (http_method r) (http_path r) now (http_request r) db.

End Dispatch.

(** ** A platform to run the controllers on

    Tokens are written [kind.id.iat].  As with jsonwebtoken, where
    [generateRefreshToken] is [jwt.sign({ _id }, secret, { expiresIn })],
    [iat] is the clock in whole seconds and the signature is a function
    of the rest: a token is determined by the secret, the payload and
    the second it is issued in, and it verifies under its own secret
    until it expires. *)
Module Demo.

Definition dec (n : N) : string := NilEmpty.string_of_uint (N.to_uint n).

Definition undec (s : string) : option N :=
  N.of_uint <$> NilEmpty.uint_of_string s.

Definition dot : Ascii.ascii := Ascii.ascii_of_nat 46.

Definition kind (s : Secret) : string :=
  match s with
  | ACCESS_TOKEN_SECRET => "access"
  | REFRESH_TOKEN_SECRET => "refresh"
  end.

(** ACCESS_TOKEN_EXPIRY of one day, REFRESH_TOKEN_EXPIRY of ten. *)
Definition expiry (s : Secret) : N :=
  match s with
  | ACCESS_TOKEN_SECRET => 86400
  | REFRESH_TOKEN_SECRET => 864000
  end.

Definition sign (s : Secret) (id : string) (iat : N) : string :=
  kind s +:+ "." +:+ id +:+ "." +:+ dec iat.

Definition jwt_error (msg : string) : JsError :=
  {| err_name := "JsonWebTokenError"; err_message := msg |}.

Definition verify (s : Secret) (token : string) (now : N)
  : JsError + Payload :=
  match split_on dot token with
  | [k; id; iat] =>
      if String.eqb k (kind s)
      then match undec iat with
           | Some t =>
               if (now <? t + expiry s)%N
               then inr {| payload_id := Some id |}
               else inl {| err_name := "TokenExpiredError";
                           err_message := "jwt expired" |}
           | None => inl (jwt_error "jwt malformed")
           end
      else inl (jwt_error "invalid signature")
  | _ => inl (jwt_error "jwt malformed")
  end.

Definition hash (password : string) : string := "hash:" +:+ password.

Definition compare (u : User) (pw : option string) : JsError + bool :=
  match pw with
  | Some pw => inr (String.eqb (hash pw) (password u))
  | None =>
      inl {| err_name := "Error";
             err_message := "data and hash arguments required" |}
  end.

Definition create (doc : NewUser) (db : DB) : (JsError + User) * DB :=
  match new_fullName doc, new_avatar doc, new_email doc, new_password doc with
  | Some fn, Some av, Some em, Some pw =>
      let u := {| user_id := "u" +:+ dec (N.of_nat (length (users db)));
                  username := new_username doc; email := em; fullName := fn;
                  avatar := av; coverImage := new_coverImage doc;
                  password := hash pw; refreshToken := None;
                  watchHistory := [] |} in
      (inr u, set_users (users db ++ [u]) db)
  | _, _, _, _ =>
      (inl {| err_name := "ValidationError";
              err_message := "User validation failed" |}, db)
  end.

Definition platform : Platform :=
  {| generateAccessToken := fun u now => inr (sign ACCESS_TOKEN_SECRET (user_id u) now);
     generateRefreshToken := fun u now => inr (sign REFRESH_TOKEN_SECRET (user_id u) now);
     jwt_verify := verify;
     isPasswordCorrect := compare;
     cloudinary_upload := fun p =>
       Some {| cloud_url := Some ("http://res.cloudinary.com/demo" +:+ p) |};
     fs_unlinkSync := fun _ => None;
     process_cwd := "/srv/app";
     User_create := create |}.

(** *** Sample data *)

Definition alice : User :=
  {| user_id := "a1"; username := "alice"; email := "alice@example.com";
     fullName := "Alice A"; avatar := "http://res.cloudinary.com/demo/a.jpg";
     coverImage := ""; password := hash "wonderland";
     refreshToken := None; watchHistory := ["v2"; "v1"] |}.

Definition bob : User :=
  {| user_id := "b2"; username := "bob"; email := "bob@example.com";
     fullName := "Bob B"; avatar := "http://res.cloudinary.com/demo/b.jpg";
     coverImage := ""; password := hash "builder";
     refreshToken := None; watchHistory := [] |}.

Definition video1 : Video :=
  {| video_id := "v1"; video_owner := "b2"; video_title := "Learn MongoDB" |}.

Definition video2 : Video :=
  {| video_id := "v2"; video_owner := "b2"; video_title := "JavaScript Advanced" |}.

Definition db0 : DB := {| users := [alice; bob]; videos := [video1; video2] |}.

Definition empty_request : Request :=
  {| req_cookies := ∅; req_body := ∅; req_headers := ∅;
     req_files := None; req_user := None |}.

Definition with_body (fields : list (string * string)) : Request :=
  {| req_cookies := ∅; req_body := list_to_map fields; req_headers := ∅;
     req_files := None; req_user := None |}.

Definition with_cookies (fields : list (string * string)) : Request :=
  {| req_cookies := list_to_map fields; req_body := ∅; req_headers := ∅;
     req_files := None; req_user := None |}.

Definition as_user (u : User) : Request :=
  {| req_cookies := ∅; req_body := ∅; req_headers := ∅;
     req_files := None; req_user := Some (select_public u) |}.

(** *** Requests and states of the examples *)

Definition login_alice : Request :=
  with_body [("username", "alice"); ("password", "wonderland")].

(** The database after alice logged in at second 100. *)
Definition db1 : DB := snd (loginUser (P:=platform) 100 login_alice db0).

(** The response of a login of alice that issues the two tokens. *)
Definition login_response (accessToken refreshToken : string) : Response :=
  {| res_status := 200;
     res_cookies := [cookie_with_options "accessToken" accessToken;
                     cookie_with_options "refreshToken" refreshToken];
     res_cleared := [];
     res_body := B_ApiResponse
       (new_ApiResponse 200
          (D_loggedIn (Some (select_public alice)) accessToken refreshToken)
          "User logged In Successfully") |}.

(** The response of a refresh that issues the two tokens. *)
Definition refresh_response (accessToken refreshToken : string) : Response :=
  {| res_status := 200;
     res_cookies := [cookie_with_options "accessToken" accessToken;
                     cookie_with_options "refreshToken" refreshToken];
     res_cleared := [];
     res_body := B_ApiResponse
       (new_ApiResponse 200 (D_refreshed accessToken refreshToken)
          "Access token refreshed") |}.

Definition refresh_with (token : string) : Request :=
  with_cookies [("refreshToken", token)].

Definition login_bob_wrong_password : Request :=
  with_body [("email", "bob@example.com"); ("password", "wonderland")].

Definition register_alice_again : Request :=
  with_body [("fullName", "Alice Again"); ("email", "again@example.com");
             ("username", "alice"); ("password", "secret")].

Definition register_alice_blank_name : Request :=
  with_body [("fullName", "  "); ("email", "again@example.com");
             ("username", "alice"); ("password", "secret")].

Definition register_carol_no_avatar : Request :=
  with_body [("fullName", "Carol C"); ("email", "carol@example.com");
             ("username", "Carol"); ("password", "secret")].

Definition upload (name : string) : File :=
  {| file_originalname := name; file_path := "public/temp/" +:+ name |}.

Definition register_carol (files : list (string * list File)) : Request :=
  {| req_cookies := ∅;
     req_body := list_to_map
       [("fullName", "Carol C"); ("email", "carol@example.com");
        ("username", "Carol"); ("password", "secret")];
     req_headers := ∅;
     req_files := Some (list_to_map files);
     req_user := None |}.

Definition carol : User :=
  {| user_id := "u2"; username := "carol"; email := "carol@example.com";
     fullName := "Carol C";
     avatar := "http://res.cloudinary.com/demo/srv/app/public/temp/c.png";
     coverImage := "http://res.cloudinary.com/demo/srv/app/public/temp/bg.png";
     password := hash "secret"; refreshToken := None; watchHistory := [] |}.

Definition history_route : Route :=
  {| route_path := "/history"; route_method := GET;
     route_stack := [h_verifyJWT; h_getWatchHistory] |}.

Definition login_route : Route :=
  {| route_path := "/login"; route_method := POST;
     route_stack := [h_loginUser] |}.

Definition no_other_controller : Handler -> N -> Request -> M Step :=
  fun _ _ req => ret (Next req).

Definition post_refresh_token : HttpRequest :=
  {| http_method := POST; http_path := "/api/v1/users/refresh-token";
     http_request := empty_request |}.

End Demo.

(** * Vocabulary of the properties *)

Section Vocabulary.
Context {P : Platform}.

(** The request presents a refresh token that verifies against the
    refresh secret at [now], names [user], and is the token stored on
    the record of [user]. *)
Definition refresh_validated (now : N) (req : Request) (db : DB) (user : User)
  : Prop :=
  exists token decoded,
    incomingRefreshToken req = Some token
    /\ token <> ""
    /\ jwt_verify REFRESH_TOKEN_SECRET token now = inr decoded
    /\ User_findById (payload_id decoded) db = Some user
    /\ refreshToken user = Some token.

(** The response hands out the pair in its two cookies. *)
Definition issues_pair (res : Response) (accessToken refreshToken : string)
  : Prop :=
  res_status res = 200
  /\ res_cookies res = [cookie_with_options "accessToken" accessToken;
                        cookie_with_options "refreshToken" refreshToken].

(** The database after [rt] is stored on the record of [user]. *)
Definition rotated (user : User) (rt : string) (db : DB) : DB :=
  set_users (updateOne (has_id (user_id user))
               (set_refreshToken (Some rt)) (users db)) db.

End Vocabulary.

Section SessionVocabulary.
Context {P : Platform}.

(** The refresh token stored on the record of the user [id]. *)
Definition stored_token (id : string) (db : DB) : option string :=
  User_findById (Some id) db ≫= refreshToken.

(** The platform issued [old] as a refresh token, not later than
    [now].  The clock counts whole seconds: a token issued earlier
    within the current second has the clock value [now]. *)
Definition issued_earlier (old : string) (now : N) : Prop :=
  exists u now0, (now0 <= now)%N /\ generateRefreshToken u now0 = inr old.

(** [old] is not the token stored for [id], and a refresh that presents
    it, verified and naming [id], fails the comparison with the stored
    token. *)
Definition rejected_after_rotation (id old : string) (db' : DB) : Prop :=
  stored_token id db' <> Some old
  /\ forall now' req' decoded,
       incomingRefreshToken req' = Some old ->
       old <> "" ->
       jwt_verify REFRESH_TOKEN_SECRET old now' = inr decoded ->
       payload_id decoded = Some id ->
       refreshAccessToken now' req' db'
       = (Throw (ApiError 401 "Refresh token is expired or used"), db').

(** The rotation property: a successful login and a successful refresh
    store the refresh token they issue on the record of the user they
    are for, and after it every token [old] that the property speaks
    of, given the clock and the token just issued, is rejected. *)
Definition rotation_property (speaks_of : N -> string -> string -> Prop)
  : Prop :=
  (forall now req db res db',
      loginUser now req db = (Return res, db') ->
      exists found at_ rt,
        User_findOne (or_username_email (req_body req !! "username")
                                        (req_body req !! "email")) db
        = Some found
        /\ issues_pair res at_ rt
        /\ stored_token (user_id found) db' = Some rt
        /\ forall old, speaks_of now rt old ->
             rejected_after_rotation (user_id found) old db')
  /\ (forall now req db res db',
      refreshAccessToken now req db = (Return res, db') ->
      exists user at_ rt,
        refresh_validated now req db user
        /\ issues_pair res at_ rt
        /\ stored_token (user_id user) db' = Some rt
        /\ forall old, speaks_of now rt old ->
             rejected_after_rotation (user_id user) old db').

(** The property for every refresh token issued earlier. *)
Definition rotation_invalidates_earlier_tokens : Prop :=
  rotation_property (fun now _ old => issued_earlier old now).

End SessionVocabulary.

Section RegisterVocabulary.
Context {P : Platform}.

(** The four fields of the body that [registerUser] checks. *)
Definition checked_fields (req : Request) : list (option string) :=
  [req_body req !! "fullName"; req_body req !! "email";
   req_body req !! "username"; req_body req !! "password"].

(** The request repeats the username or the email of [existing]. *)
Definition duplicates (req : Request) (existing : User) : Prop :=
  req_body req !! "username" = Some (username existing)
  \/ req_body req !! "email" = Some (email existing).

(** The conflict property for every request that repeats a username or
    an email. *)
Definition duplicate_always_conflicts : Prop :=
  forall req db existing,
    existing ∈ users db ->
    duplicates req existing ->
    exists msg, registerUser req db = (Throw (ApiError 409 msg), db).

(** [verifyJWT] turns the request away: it finds no token, or the
    token does not verify, or the token names no user. *)
Definition access_rejected (now : N) (req : Request) (db : DB) : Prop :=
  truthy (accessTokenOf req) = false
  \/ (exists token e,
        accessTokenOf req = Some token
        /\ jwt_verify ACCESS_TOKEN_SECRET token now = inl e)
  \/ (exists token decoded,
        accessTokenOf req = Some token
        /\ jwt_verify ACCESS_TOKEN_SECRET token now = inr decoded
        /\ User_findById (payload_id decoded) db = None).

End RegisterVocabulary.

(** Every route of the router has [verifyJWT] among its handlers. *)
Definition every_route_guarded : Prop :=
  forall r, r ∈ router -> h_verifyJWT ∈ route_stack r.

(** * The rest of the user controller, and utils/cloudinary.js *)

(** ** getPublicIdFromUrl *)

Definition period : Ascii.ascii := Ascii.ascii_of_nat 46.

(** [parts.indexOf(x) + 2], with [indexOf] answering -1 when [x] is
    not an element. *)
Definition indexOf_plus_2 (x : string) (parts : list string) : nat :=
  match list_find (fun part => part = x) parts with
  | Some (i, _) => i + 2
  | None => 1
  end.

(** [getPublicIdFromUrl] of utils/cloudinary.js: the parts of the URL
    after the one that follows "upload", joined again and cut at the
    first full stop. *)
Definition getPublicIdFromUrl (url : string) : string :=
  let parts := split_on slash url in
  let folderIndex := indexOf_plus_2 "upload" parts in
  let fullPath := String.concat "/" (drop folderIndex parts) in
  hd "" (split_on period fullPath).

(** ** What these controllers call besides the platform *)

Class Services := {
  (** [cloudinary.uploader.destroy(publicID)]: its [result] field *)
  cloudinary_destroy : string -> JsError + string;
  (** the [password] that [user.save()] stores after
      [user.password = value], through the hooks of the user schema *)
  save_password : User -> option string -> JsError + string;
  (** [User.findByIdAndUpdate(undefined, update, { new: true })]: what
      mongoose makes of an id that is not there *)
  update_without_id : (User -> User) -> DB -> option User * DB
}.

(** ** Answers *)

(** A user document read with [.select("-password")]: the refresh token
    stays in. *)
Record Account := {
  acc_id : string;
  acc_username : string;
  acc_email : string;
  acc_fullName : string;
  acc_avatar : string;
  acc_coverImage : string;
  acc_refreshToken : option string;
  acc_watchHistory : list string
}.

Definition select_no_password (u : User) : Account :=
  {| acc_id := user_id u; acc_username := username u; acc_email := email u;
     acc_fullName := fullName u; acc_avatar := avatar u;
     acc_coverImage := coverImage u; acc_refreshToken := refreshToken u;
     acc_watchHistory := watchHistory u |}.

(** [res.status(status).json(new ApiResponse(statusCode, data, message))] *)
Record Reply (D : Type) := {
  reply_status : nat;
  reply_statusCode : nat;
  reply_data : D;
  reply_message : string;
  reply_sucess : bool
}.

Arguments reply_status {D} _.
Arguments reply_statusCode {D} _.
Arguments reply_data {D} _.
Arguments reply_message {D} _.
Arguments reply_sucess {D} _.

Definition json_reply {D} (status statusCode : nat) (data : D)
    (message : string) : Reply D :=
  {| reply_status := status; reply_statusCode := statusCode;
     reply_data := data; reply_message := message;
     reply_sucess := statusCode <? 400 |}.

(** The [data] of [getCurrentUser]. *)
Record CurrentUser := {
  cur_user : PublicUser;
  cur_username : string;
  cur_email : string;
  cur_fullName : string
}.

(** A document of the subscriptions collection; the schema requires
    neither field, and [None] is a field that is not there. *)
Record Subscription := {
  sub_subscriber : option string;
  sub_channel : option string
}.

(** What the [$project] stage of [getUserChannelProfile] keeps. *)
Record ChannelProfile := {
  ch_id : string;
  ch_fullName : string;
  ch_username : string;
  ch_subscribersCount : nat;
  ch_channelsSubscribedToCount : nat;
  ch_isSubscribed : bool;
  ch_avatar : string;
  ch_coverImage : string;
  ch_email : string
}.

(** ** Updates of one record *)

Definition set_avatar (a : string) (u : User) : User :=
  {| user_id := user_id u; username := username u; email := email u;
     fullName := fullName u; avatar := a; coverImage := coverImage u;
     password := password u; refreshToken := refreshToken u;
     watchHistory := watchHistory u |}.

Definition set_coverImage (c : string) (u : User) : User :=
  {| user_id := user_id u; username := username u; email := email u;
     fullName := fullName u; avatar := avatar u; coverImage := c;
     password := password u; refreshToken := refreshToken u;
     watchHistory := watchHistory u |}.

(** [$set: { fullName, email }] *)
Definition set_account (name mail : string) (u : User) : User :=
  {| user_id := user_id u; username := username u; email := mail;
     fullName := name; avatar := avatar u; coverImage := coverImage u;
     password := password u; refreshToken := refreshToken u;
     watchHistory := watchHistory u |}.

Definition set_password (p : string) (u : User) : User :=
  {| user_id := user_id u; username := username u; email := email u;
     fullName := fullName u; avatar := avatar u; coverImage := coverImage u;
     password := p; refreshToken := refreshToken u;
     watchHistory := watchHistory u |}.

Section MoreControllers.
Context {P : Platform} {S : Services}.

(** [User.findByIdAndUpdate(id, update, { new: true })]: the document
    after the update, [null] when there is none with this id. *)
Definition User_findByIdAndUpdate (id : option string) (f : User -> User)
  : M (option User) :=
  match id with
  | Some i =>
      let* _ := User_updateById i f in
      query (User_findById (Some i))
  | None =>
      fun db => let (user, db') := update_without_id f db in (Return user, db')
  end.

(** ** deleteFromCloudinary *)

(** Its [catch] logs the error and throws it again. *)
Definition deleteFromCloudinary (publicURL : string) : M string :=
  try_catch
    (let publicID := getPublicIdFromUrl publicURL in
     lift (cloudinary_destroy publicID))
    (fun error => throw error).

(** ** changeCurrentPassword *)

Definition changeCurrentPassword (req : Request) : M (Reply string) :=
  let oldPassword := req_body req !! "oldPassword" in
  let newPassword := req_body req !! "newPassword" in
  let* user := query (User_findById (pub_id <$> req_user req)) in
  match user with
  | None =>
      throw (TypeError
        "Cannot read properties of null (reading 'isPasswordCorrect')")
  | Some user =>
      let* isPasswordCorrect := lift (isPasswordCorrect user oldPassword) in
      if negb isPasswordCorrect
      then throw (ApiError 400 "Invalid old password")
      else
        (* user.password = newPassword; user.save(...) *)
        let* stored := lift (save_password user newPassword) in
        let* _ := User_updateById (user_id user) (set_password stored) in
        ret (json_reply 200 200
               ("your new password is " +:+ default "undefined" newPassword)
               "Password changed successfully")
  end.

(** ** getCurrentUser *)

Definition getCurrentUser (req : Request) : M (Reply CurrentUser) :=
  match req_user req with
  | None =>
      throw (TypeError
        "Cannot read properties of undefined (reading 'username')")
  | Some user =>
      ret (json_reply 200 200
             {| cur_user := user; cur_username := pub_username user;
                cur_email := pub_email user;
                cur_fullName := pub_fullName user |}
             "User fetched successfully")
  end.

(** ** updateAccountDetails *)

Definition updateAccountDetails (req : Request) : M (Reply (option Account)) :=
  match req_body req !! "fullName", req_body req !! "email" with
  | Some fullName, Some email =>
      if negb (truthy (Some fullName)) || negb (truthy (Some email))
      then throw (ApiError 400 "All fields are required")
      else
        let* user := User_findByIdAndUpdate (pub_id <$> req_user req)
                       (set_account fullName email) in
        ret (json_reply 200 200 (select_no_password <$> user)
               "Account details updated successfully")
  | _, _ => throw (ApiError 400 "All fields are required")
  end.

(** ** updateUserAvatar and updateUserCoverImage

    [file] is [req.file], as [upload.single] leaves it. *)

Definition updateUserAvatar (file : option File) (req : Request)
  : M (Reply (option Account)) :=
  match file_path <$> file with
  | Some avatarLocalPath =>
      if negb (truthy (Some avatarLocalPath))
      then throw (ApiError 400 "Avatar file is missing")
      else
        match req_user req with
        | None =>
            throw (TypeError
              "Cannot read properties of undefined (reading 'avatar')")
        | Some current =>
            let* _ := deleteFromCloudinary (pub_avatar current) in
            let* avatar := uploadOnCloudinary avatarLocalPath in
            match avatar with
            | None =>
                throw (TypeError
                  "Cannot read properties of null (reading 'url')")
            | Some avatar =>
                match cloud_url avatar with
                | Some url =>
                    if negb (truthy (Some url))
                    then throw (ApiError 400 "Error while uploading on avatar")
                    else
                      let* user :=
                        User_findByIdAndUpdate (Some (pub_id current))
                          (set_avatar url) in
                      ret (json_reply 200 200 (select_no_password <$> user)
                             "Avatar image updated successfully")
                | None => throw (ApiError 400 "Error while uploading on avatar")
                end
            end
        end
  | None => throw (ApiError 400 "Avatar file is missing")
  end.

Definition updateUserCoverImage (file : option File) (req : Request)
  : M (Reply (option Account)) :=
  match file_path <$> file with
  | Some coverImageLocalPath =>
      if negb (truthy (Some coverImageLocalPath))
      then throw (ApiError 400 "Cover image file is missing")
      else
        match req_user req with
        | None =>
            throw (TypeError
              "Cannot read properties of undefined (reading 'coverImage')")
        | Some current =>
            let* _ := deleteFromCloudinary (pub_coverImage current) in
            let* coverImage := uploadOnCloudinary coverImageLocalPath in
            match coverImage with
            | None =>
                throw (TypeError
                  "Cannot read properties of null (reading 'url')")
            | Some coverImage =>
                match cloud_url coverImage with
                | Some url =>
                    if negb (truthy (Some url))
                    then throw (ApiError 400 "Error while uploading on avatar")
                    else
                      let* user :=
                        User_findByIdAndUpdate (Some (pub_id current))
                          (set_coverImage url) in
                      ret (json_reply 200 200 (select_no_password <$> user)
                             "Cover image updated successfully")
                | None => throw (ApiError 400 "Error while uploading on avatar")
                end
            end
        end
  | None => throw (ApiError 400 "Cover image file is missing")
  end.

(** ** getUserChannelProfile

    [subscriptions] is the subscriptions collection and [param] is
    [req.params.username]. *)

(** The two [$lookup] stages, [$addFields] and [$project] on one user
    document.  ["$subscribers.subscriber"] is the array of the
    subscriber fields that are there. *)
Definition channel_profile (subscriptions : list Subscription)
    (viewer : option string) (u : User) : ChannelProfile :=
  let subscribers :=
    filter (fun s => sub_channel s = Some (user_id u)) subscriptions in
  let subscribedTo :=
    filter (fun s => sub_subscriber s = Some (user_id u)) subscriptions in
  {| ch_id := user_id u; ch_fullName := fullName u; ch_username := username u;
     ch_subscribersCount := length subscribers;
     ch_channelsSubscribedToCount := length subscribedTo;
     ch_isSubscribed :=
       match viewer with
       | Some v => bool_decide (Some v ∈ sub_subscriber <$> subscribers)
       | None => false
       end;
     ch_avatar := avatar u; ch_coverImage := coverImage u;
     ch_email := email u |}.

(** [User.aggregate([{ $match: { username } }, ...])] *)
Definition aggregate_channel (subscriptions : list Subscription)
    (viewer : option string) (name : string) (db : DB) : list ChannelProfile :=
  channel_profile subscriptions viewer
    <$> filter (fun u => username u = name) (users db).

Definition getUserChannelProfile (subscriptions : list Subscription)
    (param : option string) (req : Request) : M (Reply ChannelProfile) :=
  match param with
  | Some username =>
      if negb (truthy (Some (js_trim username)))
      then throw (ApiError 400 "username is missing")
      else
        let* channel :=
          query (aggregate_channel subscriptions (pub_id <$> req_user req)
                   (toLowerCase username)) in
        match channel with
        | [] => throw (ApiError 404 "channel does not exists")
        | first :: _ =>
            ret (json_reply 200 200 first "User channel fetched successfully")
        end
  | None => throw (ApiError 400 "username is missing")
  end.

End MoreControllers.

(** ** Services for the example platform *)

Module DemoServices.

Definition services : Services :=
  {| cloudinary_destroy := fun id =>
       if String.eqb id ""
       then inl {| err_name := "Error";
                   err_message := "Missing required parameter - public_id" |}
       else inr "ok";
     save_password := fun _ value =>
       match value with
       | Some p => inr (Demo.hash p)
       | None =>
           inl {| err_name := "Error";
                  err_message := "data and salt arguments required" |}
       end;
     update_without_id := fun _ db => (None, db) |}.

Definition subscriptions : list Subscription :=
  [ {| sub_subscriber := Some "a1"; sub_channel := Some "b2" |};
    {| sub_subscriber := Some "b2"; sub_channel := Some "a1" |};
    {| sub_subscriber := None; sub_channel := Some "b2" |} ].

End DemoServices.

(** ** Vocabulary for strings *)

(** The character occurs in the string. *)
Fixpoint contains (c : Ascii.ascii) (s : string) : bool :=
  match s with
  | EmptyString => false
  | String x s' => Ascii.eqb x c || contains c s'
  end.

(** Every character of the string is white space. *)
Fixpoint all_white (s : string) : bool :=
  match s with
  | EmptyString => true
  | String c s' => is_white_space c && all_white s'
  end.

(** A segment that [path.resolve] keeps. *)
Definition kept_segment (seg : string) : Prop :=
  seg <> "" /\ seg <> "." /\ seg <> ".." /\ contains slash seg = false.

Section MoreVocabulary.
Context {P : Platform}.

(** The request presents an access token that verifies against the
    access secret at [now] and names [user]. *)
Definition access_validated (now : N) (req : Request) (db : DB) (user : User)
  : Prop :=
  exists token decoded,
    accessTokenOf req = Some token
    /\ token <> ""
    /\ jwt_verify ACCESS_TOKEN_SECRET token now = inr decoded
    /\ User_findById (payload_id decoded) db = Some user.

(** [u'] has the id, the username, the email, the full name, the
    avatar, the cover image and the watch history of [u]. *)
Definition same_profile (u u' : User) : Prop :=
  user_id u' = user_id u
  /\ username u' = username u
  /\ email u' = email u
  /\ fullName u' = fullName u
  /\ avatar u' = avatar u
  /\ coverImage u' = coverImage u
  /\ watchHistory u' = watchHistory u.

(** From [db] to [db'] the videos stay, no user record comes or goes,
    the record under every id other than [id] stays, and the record
    under [id] keeps its profile. *)
Definition keeps_profiles (id : string) (db db' : DB) : Prop :=
  videos db' = videos db
  /\ length (users db') = length (users db)
  /\ (forall id',
        id' <> id ->
        User_findById (Some id') db' = User_findById (Some id') db)
  /\ (forall u,
        User_findById (Some id) db = Some u ->
        exists u',
          User_findById (Some id) db' = Some u' /\ same_profile u u').

End MoreVocabulary.

(** The example platform with cloudinary out of reach: every upload
    fails, and the temporary file is removed. *)
Definition offline_platform : Platform :=
  {| generateAccessToken := generateAccessToken (Platform:=Demo.platform);
     generateRefreshToken := generateRefreshToken (Platform:=Demo.platform);
     jwt_verify := Demo.verify;
     isPasswordCorrect := Demo.compare;
     cloudinary_upload := fun _ => None;
     fs_unlinkSync := fun _ => None;
     process_cwd := "/srv/app";
     User_create := Demo.create |}.

Definition change_password_request (old new : string) (u : User) : Request :=
  {| req_cookies := ∅;
     req_body := list_to_map [("oldPassword", old); ("newPassword", new)];
     req_headers := ∅; req_files := None;
     req_user := Some (select_public u) |}.

Definition account_request (name mail : string) (u : User) : Request :=
  {| req_cookies := ∅;
     req_body := list_to_map [("fullName", name); ("email", mail)];
     req_headers := ∅; req_files := None;
     req_user := Some (select_public u) |}.

(** * Bodies with values of any JSON type *)

(** express.json hands a handler whatever JSON value a field of the
    body holds, and multer gives an object for a nested form field.
    [Request] above describes the requests whose body fields are
    strings.  [registerUser] calls a method of its fields before it
    uses them, so what it does with a value of another type is read off
    its own code; it is written out here for every body. *)
#[local] Unset Elimination Schemes.
Inductive Json :=
| J_null
| J_bool (b : bool)
| J_number (q : QArith_base.Q)
| J_string (s : string)
| J_array (items : list Json)
| J_object (fields : list (string * Json)).
#[local] Set Elimination Schemes.

(** The receiver of [field?.trim()]: [undefined] and [null] stop the
    chain, a string has the method, and on a value of another type the
    call throws, [trim] being no function there. *)
Definition trim_receiver (field : option Json) : JsError + option string :=
  match field with
  | None | Some J_null => inr None
  | Some (J_string s) => inr (Some s)
  | Some _ => inl (type_error "field?.trim is not a function")
  end.

(** [fields.some((field) => field?.trim() === "")]: the fields are
    visited in order, up to the first one for which the test is true
    or throws. *)
Fixpoint some_field_is_blank (fields : list (option Json)) : JsError + bool :=
  match fields with
  | [] => inr false
  | field :: rest =>
      match trim_receiver field with
      | inl e => inl e
      | inr receiver =>
          if field_is_blank receiver then inr true
          else some_field_is_blank rest
      end
  end.

(** A field that got past the test is a string, [null] or [undefined];
    [null] in a clause of the filter matches no stored user either. *)
Definition string_of (field : option Json) : option string :=
  match field with
  | Some (J_string s) => Some s
  | _ => None
  end.

Section JsonBodies.
Context {P : Platform}.

(** [registerUser] for a request whose [req.body] is [body]; the files
    are those of [req]. *)
Definition registerUser_json (body : gmap string Json) (req : Request)
  : M Response :=
  let fullName := body !! "fullName" in
  let email := body !! "email" in
  let username := body !! "username" in
  let password := body !! "password" in
  let* blank :=
    lift (some_field_is_blank [fullName; email; username; password]) in
  if (blank : bool)
  then throw (ApiError 400 "All fields are required")
  else
    let* existedUser :=
      query (User_findOne (or_username_email (string_of username)
                                             (string_of email))) in
    match existedUser with
    | Some _ =>
        throw (ApiError 409 "User with email or username already exists")
    | None =>
        let avatarFilePath := first_file_path req "avatar" in
        let* absoluteAvatarPath :=
          lift (path_resolve process_cwd avatarFilePath) in
        let coverImageLocalPath := first_file_path req "coverImage" in
        let* absoluteCoverImagePath :=
          lift (path_resolve process_cwd coverImageLocalPath) in
        if negb (truthy (Some absoluteAvatarPath))
        then throw (ApiError 400 "Avatar file path is required")
        else
          let* avatar := uploadOnCloudinary absoluteAvatarPath in
          let* coverImage := uploadOnCloudinary absoluteCoverImagePath in
          match avatar with
          | None => throw (ApiError 400 "Avatar file is not uploaded")
          | Some avatar =>
              match username with
              | None =>
                  throw (TypeError
                    "Cannot read properties of undefined (reading 'toLowerCase')")
              | Some J_null =>
                  throw (TypeError
                    "Cannot read properties of null (reading 'toLowerCase')")
              | Some (J_string username) =>
                  let* user := create_user
                    {| new_fullName := string_of fullName;
                       new_avatar := cloud_url avatar;
                       new_coverImage :=
                         js_or_default (coverImage ≫= cloud_url) "";
                       new_email := string_of email;
                       new_password := string_of password;
                       new_username := toLowerCase username |} in
                  let* createdUser :=
                    query (User_findById (Some (user_id user))) in
                  match createdUser with
                  | None =>
                      throw (ApiError 500
                        "Something went wrong while registering the user")
                  | Some createdUser =>
                      ret {| res_status := 201;
                             res_cookies := [];
                             res_cleared := [];
                             res_body := B_ApiResponse
                               (new_ApiResponse 200
                                  (D_createdUser (select_public createdUser))
                                  "User registered Successfully") |}
                  end
              | Some _ =>
                  throw (TypeError "username.toLowerCase is not a function")
              end
          end
    end.

End JsonBodies.

(** The four fields of the body that [registerUser] tests. *)
Definition json_checked_fields (body : gmap string Json)
  : list (option Json) :=
  [body !! "fullName"; body !! "email"; body !! "username";
   body !! "password"].

(** The field is missing, [null] or a string: [field?.trim()] does not
    throw. *)
Definition string_or_nullish (field : option Json) : Prop :=
  match field with
  | None | Some J_null | Some (J_string _) => True
  | Some _ => False
  end.

(** The field is missing, [null], or a string that is not blank: the
    test of [registerUser] goes on to the next field. *)
Definition not_blank (field : option Json) : Prop :=
  match field with
  | None | Some J_null => True
  | Some (J_string s) => js_trim s <> ""
  | Some _ => False
  end.

(** The body repeats, as a string, the username or the email of
    [existing]. *)
Definition json_duplicates (body : gmap string Json) (existing : User)
  : Prop :=
  body !! "username" = Some (J_string (username existing))
  \/ body !! "email" = Some (J_string (email existing)).

(** The body of a request of [Request], as JSON. *)
Definition json_body (req : Request) : gmap string Json :=
  J_string <$> req_body req.

(** * Properties *)

(** Unfolds the operations of the handler monad. *)
Ltac run :=
  unfold bind, try_catch, lift, query, modify, ret, throw, User_updateById in *.

(** ** The user collection *)

Lemma find_has_id id l u :
  List.find (has_id id) l = Some u -> user_id u = id.
Proof.
  intros Hf. apply find_some in Hf as [_ Hid].
  unfold has_id in Hid. by apply bool_decide_eq_true in Hid.
Qed.

Lemma findById_id id db u :
  User_findById id db = Some u -> id = Some (user_id u).
Proof.
  destruct id as [i|]; simpl; [|done].
  intros Hf. by rewrite (find_has_id _ _ _ Hf).
Qed.

Lemma findById_again id db u :
  User_findById id db = Some u -> User_findById (Some (user_id u)) db = Some u.
Proof. intros Hf. by rewrite <- (findById_id _ _ _ Hf). Qed.

Lemma find_updateOne_same id f l :
  (forall u, user_id (f u) = user_id u) ->
  List.find (has_id id) (updateOne (has_id id) f l)
  = f <$> List.find (has_id id) l.
Proof.
  intros Hf. induction l as [|u l IH]; simpl; [done|].
  destruct (has_id id u) eqn:Hu; simpl.
  - unfold has_id in *. by rewrite Hf, Hu.
  - by rewrite Hu.
Qed.

Lemma find_updateOne_other id id' f l :
  (forall u, user_id (f u) = user_id u) -> id' <> id ->
  List.find (has_id id') (updateOne (has_id id) f l)
  = List.find (has_id id') l.
Proof.
  intros Hf Hne. induction l as [|u l IH]; simpl; [done|].
  destruct (has_id id u) eqn:Hu; simpl.
  - unfold has_id in *. rewrite Hf.
    apply bool_decide_eq_true in Hu.
    rewrite !bool_decide_eq_false_2 by congruence. done.
  - by rewrite IH.
Qed.

Section TokenProperties.
Context {P : Platform}.

(** [generateAccessAndRefereshTokens] returns the pair it stored, or
    throws its 500 error with nothing written. *)
Lemma generate_tokens_inv now id db out db' :
  generateAccessAndRefereshTokens now id db = (out, db') ->
  (exists user at_ rt,
      out = Return (at_, rt)
      /\ User_findById (Some id) db = Some user
      /\ generateAccessToken user now = inr at_
      /\ generateRefreshToken user now = inr rt
      /\ db' = set_users (updateOne (has_id (user_id user))
                            (set_refreshToken (Some rt)) (users db)) db)
  \/ (out = Throw (ApiError 500
         "Something went wrong while generating referesh and access token")
      /\ db' = db).
Proof.
  unfold generateAccessAndRefereshTokens. run.
  destruct (User_findById (Some id) db) as [user|] eqn:Hu.
  - destruct (generateAccessToken user now) as [e|at_] eqn:Ha; run.
    + intros [= <- <-]. by right.
    + destruct (generateRefreshToken user now) as [e|rt] eqn:Hr; run.
      * intros [= <- <-]. by right.
      * intros [= <- <-]. left. by exists user, at_, rt.
  - intros [= <- <-]. by right.
Qed.

End TokenProperties.

Section RefreshProperties.
Context {P : Platform}.

(** Every run of [refreshAccessToken]: either all four checks passed
    and the pair generated for the user is stored and sent, or the
    handler throws a 401 and the database is as before. *)
Lemma refreshAccessToken_inv now req db out db' :
  refreshAccessToken now req db = (out, db') ->
  (exists user at_ rt res,
      out = Return res
      /\ refresh_validated now req db user
      /\ generateAccessToken user now = inr at_
      /\ generateRefreshToken user now = inr rt
      /\ issues_pair res at_ rt
      /\ db' = rotated user rt db)
  \/ (exists msg, out = Throw (ApiError 401 msg) /\ db' = db).
Proof.
  unfold refreshAccessToken.
  destruct (incomingRefreshToken req) as [token|] eqn:Htok;
    [|intros [= <- <-]; right; by eexists].
  destruct (negb (truthy (Some token))) eqn:Htruthy;
    [intros [= <- <-]; right; by eexists|].
  assert (token <> "") as Hne.
  { intros ->. by simpl in Htruthy. }
  run.
  destruct (jwt_verify REFRESH_TOKEN_SECRET token now) as [e|decoded] eqn:Hv;
    run; [intros [= <- <-]; right; by eexists|].
  destruct (User_findById (payload_id decoded) db) as [user|] eqn:Hu;
    [|intros [= <- <-]; right; by eexists].
  destruct (bool_decide (Some token = refreshToken user)) eqn:Hstored; simpl;
    [|intros [= <- <-]; right; by eexists].
  apply bool_decide_eq_true in Hstored.
  destruct (generateAccessAndRefereshTokens now (user_id user) db)
    as [gen db1] eqn:Hgen.
  apply generate_tokens_inv in Hgen
    as [(user' & at_ & rt & -> & Hu' & Ha & Hr & ->)|[-> ->]].
  - rewrite (findById_again _ _ _ Hu) in Hu'. injection Hu' as <-.
    intros [= <- <-]. left. exists user, at_, rt. eexists.
    split; [done|]. split; [|done].
    by exists token, decoded.
  - intros [= <- <-]. right. by eexists.
Qed.

(** C1. A refresh succeeds, issuing a new access and refresh token
    pair, only if the presented refresh token verifies against the
    refresh secret and equals the single refresh token stored on the
    user's record; in every other case the handler throws a 401. *)
Theorem refreshAccessToken_fails_closed now req db :
  match fst (refreshAccessToken now req db) with
  | Return res =>
      exists user at_ rt,
        refresh_validated now req db user
        /\ generateAccessToken user now = inr at_
        /\ generateRefreshToken user now = inr rt
        /\ issues_pair res at_ rt
  | Throw e => exists msg, e = ApiError 401 msg
  end
  /\ ((~ exists user, refresh_validated now req db user) ->
      exists msg, fst (refreshAccessToken now req db) = Throw (ApiError 401 msg)).
Proof.
  destruct (refreshAccessToken now req db) as [out db'] eqn:Hrun.
  apply refreshAccessToken_inv in Hrun
    as [(user & at_ & rt & res & -> & Hval & Ha & Hr & Hres & _)
       |(msg & -> & _)]; simpl.
  - split; [by exists user, at_, rt|].
    intros Hnot. destruct Hnot. by exists user.
  - split; by exists msg.
Qed.

(** C9. A refresh request that is rejected leaves the database as it
    was: the stored refresh token and every other field of every
    record. *)
Theorem refreshAccessToken_rejection_writes_nothing now req db e :
  fst (refreshAccessToken now req db) = Throw e ->
  snd (refreshAccessToken now req db) = db.
Proof.
  destruct (refreshAccessToken now req db) as [out db'] eqn:Hrun.
  apply refreshAccessToken_inv in Hrun
    as [(user & at_ & rt & res & -> & _)|(msg & -> & ->)]; simpl; [done|done].
Qed.

(** The record is written only after the four checks have passed. *)
Lemma refreshAccessToken_writes_after_validation now req db :
  snd (refreshAccessToken now req db) <> db ->
  exists user, refresh_validated now req db user.
Proof.
  destruct (refreshAccessToken now req db) as [out db'] eqn:Hrun.
  apply refreshAccessToken_inv in Hrun
    as [(user & at_ & rt & res & -> & Hval & _)|(msg & -> & ->)]; simpl.
  - intros _. by exists user.
  - done.
Qed.

End RefreshProperties.

Section SessionProperties.
Context {P : Platform}.

Lemma set_refreshToken_id t u : user_id (set_refreshToken t u) = user_id u.
Proof. done. Qed.

Lemma stored_token_rotated user rt db :
  User_findById (Some (user_id user)) db = Some user ->
  stored_token (user_id user) (rotated user rt db) = Some rt.
Proof.
  unfold stored_token, rotated. simpl. intros Hu.
  rewrite find_updateOne_same by apply set_refreshToken_id.
  by rewrite Hu.
Qed.

(** A refresh that presents a verified, non-empty token naming a user
    whose stored token is another one stops at the comparison. *)
Lemma refresh_mismatch now req db token decoded id :
  incomingRefreshToken req = Some token ->
  token <> "" ->
  jwt_verify REFRESH_TOKEN_SECRET token now = inr decoded ->
  payload_id decoded = Some id ->
  is_Some (User_findById (Some id) db) ->
  stored_token id db <> Some token ->
  refreshAccessToken now req db
  = (Throw (ApiError 401 "Refresh token is expired or used"), db).
Proof.
  intros Htok Hne Hv Hid [user Hu] Hstored.
  unfold refreshAccessToken. rewrite Htok.
  assert (negb (truthy (Some token)) = false) as ->.
  { simpl. destruct (String.eqb_spec token ""); [done|done]. }
  run. rewrite Hv. run. rewrite Hid, Hu.
  unfold stored_token in Hstored. rewrite Hu in Hstored. simpl in Hstored.
  rewrite bool_decide_eq_false_2 by congruence. done.
Qed.

(** A refresh that finds no record for the user named by the token,
    or no token, or a token that does not verify, throws a 401 too. *)
Lemma refresh_rejected_401 now req db :
  (~ exists user, refresh_validated now req db user) ->
  exists msg, refreshAccessToken now req db = (Throw (ApiError 401 msg), db).
Proof.
  intros Hnot.
  destruct (refreshAccessToken now req db) as [out db'] eqn:Hrun.
  apply refreshAccessToken_inv in Hrun
    as [(user & at_ & rt & res & -> & Hval & _)|(msg & -> & ->)].
  - destruct Hnot. by exists user.
  - by exists msg.
Qed.

(** What a successful login did. *)
Lemma loginUser_inv now req db res db' :
  loginUser now req db = (Return res, db') ->
  exists found user at_ rt,
    User_findOne (or_username_email (req_body req !! "username")
                                    (req_body req !! "email")) db = Some found
    /\ isPasswordCorrect found (req_body req !! "password") = inr true
    /\ User_findById (Some (user_id found)) db = Some user
    /\ generateAccessToken user now = inr at_
    /\ generateRefreshToken user now = inr rt
    /\ issues_pair res at_ rt
    /\ db' = rotated user rt db.
Proof.
  unfold loginUser.
  destruct (negb (truthy (req_body req !! "username"))
            && negb (truthy (req_body req !! "email"))); [done|].
  run.
  destruct (User_findOne _ db) as [found|] eqn:Hfound; [|done].
  destruct (isPasswordCorrect found (req_body req !! "password"))
    as [e|[|]] eqn:Hpw; run; [done| |done].
  simpl.
  destruct (generateAccessAndRefereshTokens now (user_id found) db)
    as [gen db1] eqn:Hgen.
  apply generate_tokens_inv in Hgen
    as [(user & at_ & rt & -> & Hu & Ha & Hr & ->)|[-> ->]]; [|done].
  intros [= <- <-]. exists found, user, at_, rt.
  repeat split; done.
Qed.

(** After the rotation to [rt] every other token is rejected. *)
Lemma rotated_rejects_others user rt db old :
  User_findById (Some (user_id user)) db = Some user ->
  old <> rt ->
  rejected_after_rotation (user_id user) old (rotated user rt db).
Proof.
  intros Hu Hold.
  pose proof (stored_token_rotated user rt db Hu) as Hstored.
  assert (stored_token (user_id user) (rotated user rt db) <> Some old)
    as Hother by (rewrite Hstored; congruence).
  split; [done|].
  intros now' req' decoded Htok Hne Hv Hid.
  apply (refresh_mismatch now' req' _ old decoded (user_id user)); try done.
  unfold stored_token in Hstored.
  destruct (User_findById (Some (user_id user)) (rotated user rt db));
    [by eexists|done].
Qed.

(** C2, as amended.  Every successful login and every successful
    refresh stores the refresh token it issues on the user's record, in
    the place of the one stored before; any refresh token other than
    the one just issued is then not the stored one, and a refresh that
    presents it fails the comparison with the stored token. *)
Theorem rotation_invalidates_other_tokens :
  rotation_property (fun _ rt old => old <> rt).
Proof.
  split.
  - intros now req db res db' Hlogin.
    apply loginUser_inv in Hlogin
      as (found & user & at_ & rt & Hfound & _ & Hu & _ & _ & Hres & ->).
    pose proof (find_has_id _ _ _ Hu) as Hid.
    apply findById_again in Hu.
    exists found, at_, rt. rewrite <- Hid.
    split; [done|]. split; [done|].
    split; [by apply stored_token_rotated|].
    intros old Hold. by apply rotated_rejects_others.
  - intros now req db res db' Hrefresh.
    apply refreshAccessToken_inv in Hrefresh
      as [(user & at_ & rt & res' & [= <-] & Hval & _ & _ & Hres & ->)
         |(msg & [=] & _)].
    pose proof Hval as (token & decoded & _ & _ & _ & Hu & _).
    apply findById_again in Hu.
    exists user, at_, rt.
    split; [done|]. split; [done|].
    split; [by apply stored_token_rotated|].
    intros old Hold. by apply rotated_rejects_others.
Qed.

(** C5. A login that names an existing user and carries a password
    that does not match the password stored for that user throws the
    401 error; no token is issued and none is stored. *)
Theorem loginUser_wrong_password now req db user :
  truthy (req_body req !! "username") || truthy (req_body req !! "email") = true ->
  User_findOne (or_username_email (req_body req !! "username")
                                  (req_body req !! "email")) db = Some user ->
  isPasswordCorrect user (req_body req !! "password") = inr false ->
  loginUser now req db
  = (Throw (ApiError 401 "Invalid user credentials, Wrong Password!!!!!!"), db).
Proof.
  intros Hnamed Hfound Hpw. unfold loginUser.
  assert (negb (truthy (req_body req !! "username"))
          && negb (truthy (req_body req !! "email")) = false) as ->.
  { destruct (truthy (req_body req !! "username")),
             (truthy (req_body req !! "email")); done. }
  run. rewrite Hfound, Hpw. done.
Qed.

(** After [logoutUser] the record of the user holds no refresh token. *)
Lemma logoutUser_run req db user :
  req_user req = Some user ->
  exists res,
    logoutUser req db
    = (Return res,
       set_users (updateOne (has_id (pub_id user)) (set_refreshToken None)
                    (users db)) db)
    /\ res_status res = 200
    /\ res_cleared res = ["accessToken"; "refreshToken"].
Proof.
  intros Hu. unfold logoutUser. rewrite Hu. run. by eexists.
Qed.

(** C3. [logoutUser] removes the stored refresh token from the record
    of the authenticated user and clears both token cookies: the record
    stays, now without a refresh token, and the records of the other
    users are as they were.  A refresh that presents the token that was
    valid for that user before the logout then finds the record, fails
    the comparison with the stored token and throws a 401. *)
Theorem logout_then_refresh_fails req db user :
  req_user req = Some user ->
  exists res db1,
    logoutUser req db = (Return res, db1)
    /\ res_status res = 200
    /\ res_cleared res = ["accessToken"; "refreshToken"]
    /\ (forall u,
          User_findById (Some (pub_id user)) db = Some u ->
          User_findById (Some (pub_id user)) db1
          = Some (set_refreshToken None u))
    /\ (forall id,
          id <> pub_id user ->
          User_findById (Some id) db1 = User_findById (Some id) db)
    /\ stored_token (pub_id user) db1 = None
    /\ forall now req' u,
         refresh_validated now req' db u ->
         user_id u = pub_id user ->
         refreshAccessToken now req' db1
         = (Throw (ApiError 401 "Refresh token is expired or used"), db1).
Proof.
  intros Hu.
  destruct (logoutUser_run req db user Hu) as (res & Hrun & Hstatus & Hcleared).
  eexists res, _. split; [exact Hrun|]. split; [done|]. split; [done|].
  set (db1 := set_users (updateOne (has_id (pub_id user))
                (set_refreshToken None) (users db)) db).
  assert (forall u,
            User_findById (Some (pub_id user)) db = Some u ->
            User_findById (Some (pub_id user)) db1
            = Some (set_refreshToken None u)) as Hrecord.
  { intros u Hfind. simpl in *.
    rewrite find_updateOne_same by apply set_refreshToken_id.
    by rewrite Hfind. }
  assert (stored_token (pub_id user) db1 = None) as Hnone.
  { unfold stored_token. simpl.
    rewrite find_updateOne_same by apply set_refreshToken_id.
    by destruct (List.find (has_id (pub_id user)) (users db)). }
  split; [exact Hrecord|]. split.
  { intros id Hid. simpl.
    by apply find_updateOne_other; [apply set_refreshToken_id|]. }
  split; [exact Hnone|].
  intros now req' u (token & decoded & Htok & Hne & Hv & Hfind & Hstored) Hid.
  pose proof (findById_id _ _ _ Hfind) as Hpayload.
  rewrite Hid in Hpayload. rewrite Hpayload in Hfind.
  apply (refresh_mismatch now req' db1 token decoded (pub_id user));
    try done.
  - rewrite (Hrecord u Hfind). by eexists.
  - by rewrite Hnone.
Qed.

End SessionProperties.

Section RegisterProperties.
Context {P : Platform}.

Lemma findOne_some filter db u :
  u ∈ users db -> filter u = true -> is_Some (User_findOne filter db).
Proof.
  intros Hin Hf. unfold User_findOne.
  destruct (List.find filter (users db)) eqn:Hfind; [by eexists|].
  apply list_elem_of_In in Hin.
  pose proof (find_none _ _ Hfind _ Hin). congruence.
Qed.

(** [path.resolve] returns an absolute path, never the empty string. *)
Lemma path_resolve_truthy cwd p abs :
  path_resolve cwd p = inr abs -> truthy (Some abs) = true.
Proof. destruct p; simpl; [|done]. by intros [= <-]. Qed.

(** A body of strings: the test of the fields is the one on the
    strings. *)
Lemma some_field_is_blank_strings (fields : list (option string)) :
  some_field_is_blank
    ((fmap J_string : option string -> option Json) <$> fields)
  = inr (existsb field_is_blank fields).
Proof.
  induction fields as [|[s|] fields IH]; [done| |].
  - rewrite fmap_cons. cbn [some_field_is_blank fmap option_fmap option_map
                             trim_receiver existsb].
    rewrite IH. by destruct (field_is_blank (Some s)).
  - rewrite fmap_cons. cbn [some_field_is_blank fmap option_fmap option_map
                             trim_receiver existsb].
    rewrite IH. done.
Qed.

(** On a body whose fields are strings, the handler written for every
    body is [registerUser]. *)
Lemma registerUser_json_strings req db :
  registerUser_json (json_body req) req db = registerUser req db.
Proof.
  unfold registerUser_json, registerUser, json_body.
  rewrite !lookup_fmap.
  change [J_string <$> req_body req !! "fullName";
          J_string <$> req_body req !! "email";
          J_string <$> req_body req !! "username";
          J_string <$> req_body req !! "password"]
    with ((fmap J_string : option string -> option Json)
            <$> [req_body req !! "fullName";
                             req_body req !! "email";
                             req_body req !! "username";
                             req_body req !! "password"]).
  rewrite some_field_is_blank_strings.
  destruct (existsb field_is_blank _); [done|].
  destruct (req_body req !! "fullName"), (req_body req !! "email"),
           (req_body req !! "username"), (req_body req !! "password");
    reflexivity.
Qed.

(** Fields that are not blank pass the test. *)
Lemma some_field_not_blank fields :
  Forall not_blank fields -> some_field_is_blank fields = inr false.
Proof.
  induction 1 as [|field fields Hfield _ IH]; [done|].
  cbn [some_field_is_blank].
  destruct field as [[| | |s| |]|]; try done.
  cbn [trim_receiver field_is_blank].
  by destruct (String.eqb_spec (js_trim s) "").
Qed.

(** C4, as amended.  A register request in which each of fullName,
    email, username and password is missing, null or a string that is
    not blank, and whose username or email is the username or the email
    of an existing user record, throws the 409 error, and no user
    record is created. *)
Theorem registerUser_duplicate_conflict body req db existing :
  Forall not_blank (json_checked_fields body) ->
  existing ∈ users db ->
  json_duplicates body existing ->
  registerUser_json body req db
  = (Throw (ApiError 409 "User with email or username already exists"), db).
Proof.
  intros Hfields Hin Hdup. unfold registerUser_json.
  fold (json_checked_fields body).
  rewrite (some_field_not_blank _ Hfields). run.
  assert (or_username_email (string_of (body !! "username"))
            (string_of (body !! "email")) existing = true) as Hmatch.
  { unfold or_username_email. apply orb_true_iff.
    destruct Hdup as [-> | ->]; [left|right];
      by apply bool_decide_eq_true_2. }
  by destruct (findOne_some _ db existing Hin Hmatch) as [u ->].
Qed.

(** C10. A register request that passes the check of the fields and
    the check for an existing user, and has no avatar file, throws at
    [path.resolve], before [User.create]: nothing is written.  No
    request without an avatar file writes a record, and no request at
    all gets the error of the avatar-path guard. *)
Theorem registerUser_without_avatar req db :
  existsb field_is_blank (checked_fields req) = false ->
  User_findOne (or_username_email (req_body req !! "username")
                                  (req_body req !! "email")) db = None ->
  first_file_path req "avatar" = None ->
  registerUser req db
  = (Throw (TypeError "The 'paths[0]' argument must be of type string"), db)
  /\ (forall req' db',
        first_file_path req' "avatar" = None ->
        snd (registerUser req' db') = db')
  /\ (forall req' db',
        fst (registerUser req' db')
        <> Throw (ApiError 400 "Avatar file path is required")).
Proof.
  intros Hfields Hnone Havatar. split; [|split].
  - unfold registerUser. unfold checked_fields in Hfields.
    rewrite Hfields. run. rewrite Hnone, Havatar. done.
  - clear. intros req' db' Hno. unfold registerUser.
    destruct (existsb field_is_blank _); [done|]. run.
    destruct (User_findOne _ db'); [done|]. by rewrite Hno.
  - clear. intros req' db'. unfold registerUser.
    destruct (existsb field_is_blank _); [done|]. run.
    destruct (User_findOne _ db'); [done|].
    destruct (path_resolve process_cwd (first_file_path req' "avatar"))
      as [e|abs] eqn:Hresolve; run; [done|].
    destruct (path_resolve process_cwd (first_file_path req' "coverImage"))
      as [e|cover]; run; [done|].
    rewrite (path_resolve_truthy _ _ _ Hresolve). simpl.
    unfold uploadOnCloudinary, create_user. run.
    repeat case_match; simplify_eq; done.
Qed.

End RegisterProperties.

Section RouterProperties.
Context {P : Platform}.
Variable other_controller : Handler -> N -> Request -> M Step.

(** [verifyJWT] finds no token exactly when the accessToken cookie is
    absent or empty and the Authorization header is absent or is empty
    once its first "Bearer " is taken out. *)
Lemma no_access_token_iff req :
  truthy (accessTokenOf req) = false
  <-> truthy (req_cookies req !! "accessToken") = false
      /\ truthy (js_replace "Bearer " "" <$> req_headers req !! "authorization")
         = false.
Proof.
  unfold accessTokenOf, js_or.
  destruct (truthy (req_cookies req !! "accessToken")) eqn:Hcookie.
  - rewrite Hcookie. split; [done|]. by intros [? _].
  - split; [done|]. by intros [_ ?].
Qed.

(** [verifyJWT] throws a 401, and writes nothing, when it finds no
    token, when the token does not verify and when it names no user. *)
Lemma verifyJWT_rejects now req db :
  access_rejected now req db ->
  exists msg, verifyJWT now req db = (Throw (ApiError 401 msg), db).
Proof.
  unfold verifyJWT. run.
  intros [Hnone|[(token & e & Htok & Hv)|(token & decoded & Htok & Hv & Hu)]].
  - destruct (accessTokenOf req) as [token|]; [|by eexists].
    simpl in Hnone. simpl. rewrite Hnone. simpl. by eexists.
  - rewrite Htok.
    destruct (negb (truthy (Some token))); [by eexists|].
    rewrite Hv. run. by eexists.
  - rewrite Htok.
    destruct (negb (truthy (Some token))); [by eexists|].
    rewrite Hv. run. rewrite Hu. by eexists.
Qed.

(** When [verifyJWT] lets a request through, the token was found, it
    verified and it named a user, who is now [req.user]. *)
Lemma verifyJWT_passes now req db req' db' :
  verifyJWT now req db = (Return req', db') ->
  db' = db
  /\ exists token decoded user,
       accessTokenOf req = Some token
       /\ jwt_verify ACCESS_TOKEN_SECRET token now = inr decoded
       /\ User_findById (payload_id decoded) db = Some user
       /\ req' = set_req_user (select_public user) req.
Proof.
  unfold verifyJWT. run.
  destruct (accessTokenOf req) as [token|]; [|done].
  destruct (negb (truthy (Some token))); [done|].
  destruct (jwt_verify ACCESS_TOKEN_SECRET token now) as [e|decoded] eqn:Hv;
    run; [done|].
  destruct (User_findById (payload_id decoded) db) as [user|] eqn:Hu; [|done].
  intros [= <- <-]. split; [done|]. by exists token, decoded, user.
Qed.

(** A stack that starts with [verifyJWT] ends there when it rejects. *)
Lemma run_stack_guarded rest now req db :
  access_rejected now req db ->
  exists msg,
    run_stack other_controller (h_verifyJWT :: rest) now req db
    = (NextError (ApiError 401 msg), db).
Proof.
  intros Hrej. destruct (verifyJWT_rejects now req db Hrej) as [msg Hrun].
  exists msg. cbn [run_stack run_handler].
  unfold asyncHandler, calls_next. run. by rewrite Hrun.
Qed.

(** C6, as amended.  Every route of the router other than /register,
    /login and /refresh-token has [verifyJWT] as its first handler, and
    a request to it from which [verifyJWT] extracts no token, or whose
    token fails verification or matches no user, is rejected with a 401
    error before the controller of the route runs. *)
Theorem guarded_routes_reject_401 r :
  r ∈ router ->
  route_path r ∉ public_paths ->
  guarded r
  /\ forall now req db,
       access_rejected now req db ->
       exists msg,
         run_stack other_controller (route_stack r) now req db
         = (NextError (ApiError 401 msg), db).
Proof.
  intros Hin Hpublic. unfold router in Hin.
  repeat (apply elem_of_cons in Hin as [-> | Hin]);
    try (exfalso; apply Hpublic; simpl; unfold public_paths; set_solver);
    try (split; [done|]; intros now req db Hrej; simpl route_stack;
         by apply run_stack_guarded).
Qed.

(** An error passed to [next] under the router reaches no error
    middleware: the one of app.js sits before the router in the stack,
    so Express answers with its own error page. *)
Lemma thrown_error_reaches_finalhandler method path now req db segs err db' :
  strip_prefix (segments "/api/v1/users/") (segments path) = Some segs ->
  run_routes other_controller router method segs now req db
  = (NextError err, db') ->
  handle other_controller
    {| http_method := method; http_path := path; http_request := req |} now db
  = (finalhandler (Some err), db').
Proof.
  intros Hprefix Hrun. unfold handle, app.
  cbn [run_layers http_method http_path http_request].
  by rewrite Hprefix, Hrun.
Qed.

Lemma finalhandler_not_errorMiddleware pending err :
  finalhandler pending <> errorMiddleware err.
Proof. unfold finalhandler, errorMiddleware. congruence. Qed.

(** What the error middleware of app.js would answer. *)
Lemma errorMiddleware_shape code msg :
  code <> 0 -> msg <> "" ->
  errorMiddleware (ApiError code msg)
  = {| res_status := code; res_cookies := []; res_cleared := [];
       res_body := B_errorShape false msg code |}.
Proof.
  intros Hcode Hmsg. unfold errorMiddleware, statusCode_or_500. simpl.
  destruct code; [done|].
  destruct (String.eqb_spec msg ""); done.
Qed.

End RouterProperties.

Section WatchHistoryProperties.
Context {P : Platform}.

(** The videos come back in the order of the videos collection: their
    ids are the ids of the collection that occur in the user's list. *)
Lemma lookup_watchHistory_ids db u :
  wv_id <$> lookup_watchHistory db u
  = filter (fun id => id ∈ watchHistory u) (video_id <$> videos db).
Proof.
  unfold lookup_watchHistory.
  generalize (videos db) as l.
  induction l as [|v l IH]; [done|].
  rewrite fmap_cons, !filter_cons.
  destruct (decide (video_id v ∈ watchHistory u)); [|exact IH].
  rewrite !fmap_cons. by rewrite IH.
Qed.

(** [getWatchHistory] answers with the lookup for the record of
    [req.user]; it writes nothing. *)
Lemma getWatchHistory_returns req db user u rest :
  req_user req = Some user ->
  filter (fun u => user_id u = pub_id user) (users db) = u :: rest ->
  exists res,
    getWatchHistory req db = (Return res, db)
    /\ res_status res = 200
    /\ res_body res
       = B_ApiResponse
           (new_ApiResponse 200 (D_watchHistory (lookup_watchHistory db u))
              "Watch history fetched successfully").
Proof.
  intros Huser Hfound. unfold getWatchHistory. rewrite Huser. run.
  unfold aggregate_watchHistory. rewrite Hfound. by eexists.
Qed.

End WatchHistoryProperties.

(** ** The properties on the example platform *)

Section Examples.
Let P := Demo.platform.

Example login_alice_stores_token :
  stored_token "a1" Demo.db1 = Some "refresh.a1.100".
Proof. vm_compute. reflexivity. Qed.

Example stale_token_rejected :
  refreshAccessToken (P:=P) 200 (Demo.refresh_with "refresh.a1.50") Demo.db1
  = (Throw (ApiError 401 "Refresh token is expired or used"), Demo.db1).
Proof. vm_compute. reflexivity. Qed.

Example expired_token_rejected :
  refreshAccessToken (P:=P) 864100 (Demo.refresh_with "refresh.a1.100") Demo.db1
  = (Throw (ApiError 401 "jwt expired"), Demo.db1).
Proof. vm_compute. reflexivity. Qed.

Example access_token_is_no_refresh_token :
  refreshAccessToken (P:=P) 200 (Demo.refresh_with "access.a1.100") Demo.db1
  = (Throw (ApiError 401 "invalid signature"), Demo.db1).
Proof. vm_compute. reflexivity. Qed.

Example bearer_header_is_read :
  accessTokenOf
    {| req_cookies := ∅; req_body := ∅;
       req_headers := {[ "authorization" := "Bearer access.a1.100" ]};
       req_files := None; req_user := None |}
  = Some "access.a1.100".
Proof. vm_compute. reflexivity. Qed.

Example register_carol_with_both_files :
  registerUser (P:=P)
    (Demo.register_carol [("avatar", [Demo.upload "c.png"]);
                          ("coverImage", [Demo.upload "bg.png"])]) Demo.db0
  = (Return {| res_status := 201; res_cookies := []; res_cleared := [];
               res_body := B_ApiResponse
                 (new_ApiResponse 200
                    (D_createdUser (select_public Demo.carol))
                    "User registered Successfully") |},
     set_users [Demo.alice; Demo.bob; Demo.carol] Demo.db0).
Proof. vm_compute. reflexivity. Qed.

(** [path.resolve] is applied to the path of the cover image as well:
    without that file its argument is undefined. *)
Example register_carol_without_cover_image :
  registerUser (P:=P)
    (Demo.register_carol [("avatar", [Demo.upload "c.png"])]) Demo.db0
  = (Throw (TypeError "The 'paths[0]' argument must be of type string"),
     Demo.db0).
Proof. vm_compute. reflexivity. Qed.

Example login_without_a_user :
  loginUser (P:=P) 100
    (Demo.with_body [("username", "nobody"); ("password", "x")]) Demo.db0
  = (Throw (TypeError "Cannot read properties of null (reading '_id')"),
     Demo.db0).
Proof. vm_compute. reflexivity. Qed.

Example history_with_a_token :
  fst (handle (P:=P) Demo.no_other_controller
         {| http_method := GET; http_path := "/api/v1/users/history";
            http_request :=
              Demo.with_cookies [("accessToken", "access.a1.100")] |}
         200 Demo.db0)
  = {| res_status := 200; res_cookies := []; res_cleared := [];
       res_body := B_ApiResponse
         (new_ApiResponse 200
            (D_watchHistory
               [video_pipeline Demo.db0 Demo.video1;
                video_pipeline Demo.db0 Demo.video2])
            "Watch history fetched successfully") |}.
Proof. vm_compute. reflexivity. Qed.

Example unknown_path_is_404 :
  fst (handle (P:=P) Demo.no_other_controller
         {| http_method := GET; http_path := "/api/v1/videos";
            http_request := Demo.empty_request |} 200 Demo.db0)
  = finalhandler None.
Proof. vm_compute. reflexivity. Qed.

End Examples.

(** Witness of C9: a stale refresh token, rejected on the database in
    which alice is logged in. *)
Lemma refresh_rejection_witness :
  fst (refreshAccessToken (P:=Demo.platform) 200
         (Demo.refresh_with "refresh.a1.50") Demo.db1)
  = Throw (ApiError 401 "Refresh token is expired or used")
  /\ snd (refreshAccessToken (P:=Demo.platform) 200
            (Demo.refresh_with "refresh.a1.50") Demo.db1)
     = Demo.db1.
Proof.
  split; [vm_compute; reflexivity|].
  apply (refreshAccessToken_rejection_writes_nothing (P:=Demo.platform) 200
           (Demo.refresh_with "refresh.a1.50") Demo.db1
           (ApiError 401 "Refresh token is expired or used")).
  vm_compute. reflexivity.
Defined.

(** Witness of C2: the login of alice at second 100, and a refresh
    with the token of an earlier second afterwards. *)
Lemma rotation_witness :
  exists res db',
    loginUser (P:=Demo.platform) 100 Demo.login_alice Demo.db0
    = (Return res, db')
    /\ issues_pair res "access.a1.100" "refresh.a1.100"
    /\ stored_token "a1" db' = Some "refresh.a1.100"
    /\ refreshAccessToken (P:=Demo.platform) 200
         (Demo.refresh_with "refresh.a1.50") db'
       = (Throw (ApiError 401 "Refresh token is expired or used"), db').
Proof.
  destruct (proj1 (rotation_invalidates_other_tokens (P:=Demo.platform))
              100%N Demo.login_alice Demo.db0
              (Demo.login_response "access.a1.100" "refresh.a1.100")
              Demo.db1)
    as (found & at_ & rt & Hfound & Hres & Hstored & Hold).
  { vm_compute. reflexivity. }
  injection Hfound as <-.
  destruct Hres as [_ Hcookies]. injection Hcookies as <- <-.
  eexists _, _. split; [vm_compute; reflexivity|].
  split; [split; reflexivity|]. split; [exact Hstored|].
  destruct (Hold "refresh.a1.50") as [_ Hrejected]; [done|].
  apply (Hrejected 200%N (Demo.refresh_with "refresh.a1.50")
           {| payload_id := Some "a1" |}); [reflexivity|done|reflexivity|reflexivity].
Defined.

(** Counterexample to C2 as stated: alice logs in at second 100 and
    refreshes within the same second.  The refresh issues the token the
    login issued, so the token issued earlier is still the stored one
    (and a further refresh that presents it succeeds). *)
Lemma same_second_token_survives_rotation :
  ~ rotation_invalidates_earlier_tokens (P:=Demo.platform).
Proof.
  intros [_ Hclaim].
  assert (exists res db',
             refreshAccessToken (P:=Demo.platform) 100
               (Demo.refresh_with "refresh.a1.100") Demo.db1 = (Return res, db')
             /\ res_cookies res
                = [cookie_with_options "accessToken" "access.a1.100";
                   cookie_with_options "refreshToken" "refresh.a1.100"])
    as (res & db' & Hrun & Hcookies).
  { eexists _, _. split; vm_compute; reflexivity. }
  destruct (Hclaim 100%N _ _ res db' Hrun)
    as (user & at_ & rt & _ & [_ Hres] & Hstored & Hold).
  rewrite Hcookies in Hres. injection Hres as _ <-.
  destruct (Hold "refresh.a1.100") as [Hnot _]; [|done].
  exists Demo.alice, 100%N. split; [done|]. reflexivity.
Qed.

Example same_second_token_accepted_again :
  fst (refreshAccessToken (P:=Demo.platform) 101
         (Demo.refresh_with "refresh.a1.100")
         (snd (refreshAccessToken (P:=Demo.platform) 100
                 (Demo.refresh_with "refresh.a1.100") Demo.db1)))
  = Return (Demo.refresh_response "access.a1.101" "refresh.a1.101").
Proof. vm_compute. reflexivity. Qed.

(** Witness of C3: alice, logged in, logs out. *)
Lemma logout_then_refresh_witness :
  req_user (Demo.as_user Demo.alice) = Some (select_public Demo.alice)
  /\ exists res db1,
       logoutUser (Demo.as_user Demo.alice) Demo.db1 = (Return res, db1)
       /\ res_status res = 200
       /\ res_cleared res = ["accessToken"; "refreshToken"]
       /\ (forall u,
             User_findById (Some (pub_id (select_public Demo.alice))) Demo.db1
             = Some u ->
             User_findById (Some (pub_id (select_public Demo.alice))) db1
             = Some (set_refreshToken None u))
       /\ (forall id,
             id <> pub_id (select_public Demo.alice) ->
             User_findById (Some id) db1 = User_findById (Some id) Demo.db1)
       /\ stored_token (pub_id (select_public Demo.alice)) db1 = None
       /\ forall now req' u,
            refresh_validated (P:=Demo.platform) now req' Demo.db1 u ->
            user_id u = pub_id (select_public Demo.alice) ->
            refreshAccessToken (P:=Demo.platform) now req' db1
            = (Throw (ApiError 401 "Refresh token is expired or used"), db1).
Proof.
  split; [reflexivity|].
  apply (logout_then_refresh_fails (P:=Demo.platform)
           (Demo.as_user Demo.alice) Demo.db1 (select_public Demo.alice)).
  reflexivity.
Defined.

Example refresh_after_logout :
  refreshAccessToken (P:=Demo.platform) 200
    (Demo.refresh_with "refresh.a1.100")
    (snd (logoutUser (Demo.as_user Demo.alice) Demo.db1))
  = (Throw (ApiError 401 "Refresh token is expired or used"),
     snd (logoutUser (Demo.as_user Demo.alice) Demo.db1)).
Proof. vm_compute. reflexivity. Qed.

(** Witness of C5: bob's email with alice's password. *)
Lemma loginUser_wrong_password_witness :
  loginUser (P:=Demo.platform) 100 Demo.login_bob_wrong_password Demo.db0
  = (Throw (ApiError 401 "Invalid user credentials, Wrong Password!!!!!!"),
     Demo.db0).
Proof.
  apply (loginUser_wrong_password (P:=Demo.platform) 100
           Demo.login_bob_wrong_password Demo.db0 Demo.bob);
    vm_compute; reflexivity.
Defined.

(** Witness of C4: a second registration under alice's username. *)
Lemma registerUser_duplicate_witness :
  registerUser_json (P:=Demo.platform)
    (json_body Demo.register_alice_again) Demo.register_alice_again Demo.db0
  = (Throw (ApiError 409 "User with email or username already exists"),
     Demo.db0).
Proof.
  apply (registerUser_duplicate_conflict (P:=Demo.platform)
           (json_body Demo.register_alice_again) Demo.register_alice_again
           Demo.db0 Demo.alice).
  - unfold json_checked_fields.
    do 4 (apply List.Forall_cons; [vm_compute; discriminate|]).
    apply List.Forall_nil.
  - apply (bool_decide_unpack _). vm_compute. exact I.
  - left. vm_compute. reflexivity.
Defined.

(** Counterexample to C4 as stated: the request repeats alice's
    username and its full name is blank; the check of the fields comes
    first and the error is the 400 one. *)
Lemma blank_field_precedes_conflict :
  ~ duplicate_always_conflicts (P:=Demo.platform).
Proof.
  intros Hclaim.
  destruct (Hclaim Demo.register_alice_blank_name Demo.db0 Demo.alice)
    as [msg Hrun].
  - apply (bool_decide_unpack _). vm_compute. exact I.
  - left. vm_compute. reflexivity.
  - vm_compute in Hrun. discriminate Hrun.
Qed.

(** The same request with the number 1 as its full name: [trim] is no
    method of a number, and the test of the fields throws before the
    lookup of an existing user. *)
Example number_field_precedes_conflict :
  registerUser_json (P:=Demo.platform)
    (<["fullName" := J_number (QArith_base.Qmake 1 1)]>
       (json_body Demo.register_alice_again))
    Demo.register_alice_again Demo.db0
  = (Throw (TypeError "field?.trim is not a function"), Demo.db0).
Proof. vm_compute. reflexivity. Qed.

(** Witness of C10: carol registers without files. *)
Lemma registerUser_without_avatar_witness :
  registerUser (P:=Demo.platform) Demo.register_carol_no_avatar Demo.db0
  = (Throw (TypeError "The 'paths[0]' argument must be of type string"),
     Demo.db0).
Proof.
  apply (registerUser_without_avatar (P:=Demo.platform)
           Demo.register_carol_no_avatar Demo.db0);
    vm_compute; reflexivity.
Defined.

(** Witness of C6: the watch-history route, asked without a token. *)
Lemma guarded_routes_witness :
  exists msg,
    run_stack (P:=Demo.platform) Demo.no_other_controller
      (route_stack Demo.history_route) 100 Demo.empty_request Demo.db0
    = (NextError (ApiError 401 msg), Demo.db0).
Proof.
  apply (guarded_routes_reject_401 (P:=Demo.platform)
           Demo.no_other_controller Demo.history_route).
  - apply (bool_decide_unpack _). vm_compute. exact I.
  - apply (bool_decide_unpack _). vm_compute. exact I.
  - left. vm_compute. reflexivity.
Defined.

(** Counterexample to C6 as stated: the login route has no
    [verifyJWT] among its handlers. *)
Lemma not_every_route_guarded : ~ every_route_guarded.
Proof.
  intros Hclaim.
  assert (Demo.login_route ∈ router) as Hin
    by (apply (bool_decide_unpack _); vm_compute; exact I).
  specialize (Hclaim _ Hin). simpl in Hclaim.
  apply elem_of_cons in Hclaim as [Heq|Hnil]; [discriminate Heq|].
  by apply elem_of_nil in Hnil.
Qed.

(** C7, on the code: POST /api/v1/users/refresh-token without a token,
    on any platform, at any time and on any database.
    [refreshAccessToken] throws [ApiError(401, "unauthorized request")]
    and [asyncHandler] passes it to [next]; the application answers
    with the error page of Express, not with the JSON body of its error
    middleware, which no error thrown under the router reaches. *)
Theorem thrown_error_bypasses_errorMiddleware (P : Platform)
    (other_controller : Handler -> N -> Request -> M Step)
    (now : N) (db : DB) :
  let err := ApiError 401 "unauthorized request" in
  refreshAccessToken now Demo.empty_request db = (Throw err, db)
  /\ handle other_controller Demo.post_refresh_token now db
     = (finalhandler (Some err), db)
  /\ res_body (finalhandler (Some err)) = B_html
  /\ res_body (errorMiddleware err)
     = B_errorShape false "unauthorized request" 401.
Proof.
  intros err.
  assert (refreshAccessToken now Demo.empty_request db = (Throw err, db))
    as Hthrows by reflexivity.
  split; [exact Hthrows|].
  split; [|split; reflexivity].
  apply (thrown_error_reaches_finalhandler other_controller
           POST "/api/v1/users/refresh-token" now Demo.empty_request db
           ["refresh-token"] err db).
  - vm_compute. reflexivity.
  - cbn [router run_routes]. unfold route_matches.
    cbn [route_method route_path route_stack].
    repeat (rewrite bool_decide_eq_false_2 by discriminate;
            cbn [andb run_routes route_method route_path route_stack]).
    change (segments_match (segments "/register") ["refresh-token"]) with false.
    change (segments_match (segments "/login") ["refresh-token"]) with false.
    change (segments_match (segments "/logout") ["refresh-token"]) with false.
    change (segments_match (segments "/refresh-token") ["refresh-token"])
      with true.
    rewrite !bool_decide_eq_true_2 by done.
    cbn [andb run_stack run_handler].
    unfold asyncHandler, sends, bind. by rewrite Hthrows.
Qed.

(** C8, on the code: alice's stored watch history is v2, v1; the
    videos collection holds v1 before v2; [getWatchHistory] answers
    with v1, v2. *)
Theorem getWatchHistory_collection_order :
  watchHistory Demo.alice = ["v2"; "v1"]
  /\ exists res l,
       getWatchHistory (Demo.as_user Demo.alice) Demo.db0
       = (Return res, Demo.db0)
       /\ res_body res
          = B_ApiResponse
              (new_ApiResponse 200 (D_watchHistory l)
                 "Watch history fetched successfully")
       /\ wv_id <$> l = ["v1"; "v2"].
Proof.
  split; [reflexivity|].
  eexists _, _. split; [vm_compute; reflexivity|].
  split; vm_compute; reflexivity.
Qed.

(** * More of the code *)

(** ** Splitting and joining strings *)

Section Strings.
Variable c : Ascii.ascii.

Lemma split_on_nonempty s : split_on c s <> [].
Proof.
  destruct s as [|x s]; simpl; [done|].
  destruct (Ascii.eqb x c); [done|]. by destruct (split_on c s).
Qed.

Lemma split_on_append a b :
  split_on c (a +:+ String c b) = split_on c a ++ split_on c b.
Proof.
  induction a as [|x a IH]; simpl.
  - by rewrite Ascii.eqb_refl.
  - destruct (Ascii.eqb x c); [by rewrite IH|].
    rewrite IH. pose proof (split_on_nonempty a).
    by destruct (split_on c a).
Qed.

Lemma split_on_free s : contains c s = false -> split_on c s = [s].
Proof.
  induction s as [|x s IH]; simpl; [done|].
  intros [Hx Hs]%orb_false_iff. rewrite Ascii.eqb_sym in Hx.
  rewrite Ascii.eqb_sym, Hx. by rewrite IH.
Qed.

Lemma split_on_parts_free s :
  Forall (fun part => contains c part = false) (split_on c s).
Proof.
  induction s as [|x s IH]; simpl; [by constructor|].
  destruct (Ascii.eqb x c) eqn:Hx; [by constructor|].
  pose proof (split_on_nonempty s).
  destruct (split_on c s) as [|seg rest]; [done|].
  apply Forall_cons in IH as [Hseg Hrest].
  constructor; [|done]. simpl. by rewrite Hx.
Qed.

(** Joining what was split gives the string back. *)
Lemma concat_split_on s : String.concat (String c "") (split_on c s) = s.
Proof.
  induction s as [|x s IH]; simpl; [done|].
  pose proof (split_on_nonempty s).
  destruct (Ascii.eqb x c) eqn:Hx.
  - apply Ascii.eqb_eq in Hx as ->.
    destruct (split_on c s) as [|seg rest]; [done|].
    simpl in *. by rewrite IH.
  - destruct (split_on c s) as [|seg rest]; [done|].
    destruct rest; simpl in *; by rewrite <- IH.
Qed.

(** Splitting what was joined gives the parts back. *)
Lemma split_on_concat parts :
  parts <> [] ->
  Forall (fun part => contains c part = false) parts ->
  split_on c (String.concat (String c "") parts) = parts.
Proof.
  induction parts as [|part parts IH]; [done|].
  intros _ [Hpart Hparts]%Forall_cons.
  destruct parts as [|part' parts].
  - simpl. by apply split_on_free.
  - change (String.concat (String c "") (part :: part' :: parts))
      with (part +:+ String c (String.concat (String c "") (part' :: parts))).
    rewrite split_on_append, split_on_free by done.
    by rewrite IH.
Qed.

Lemma hd_split_on_free s : contains c (hd "" (split_on c s)) = false.
Proof.
  pose proof (split_on_parts_free s) as Hfree.
  destruct (split_on c s); [done|]. by apply Forall_cons in Hfree as [? _].
Qed.

Lemma hd_split_on_append a b :
  contains c a = false -> hd "" (split_on c (a +:+ String c b)) = a.
Proof. intros Ha. by rewrite split_on_append, split_on_free. Qed.

End Strings.

(** ** getPublicIdFromUrl *)

Lemma indexOf_plus_2_first x before after :
  x ∉ before ->
  indexOf_plus_2 x (before ++ x :: after) = length before + 2.
Proof.
  intros Hnot. unfold indexOf_plus_2.
  rewrite list_find_app_r.
  - simpl. rewrite decide_True by done. simpl. lia.
  - apply list_find_None, Forall_forall. intros y Hy ->. done.
Qed.

(** X1. For a delivery URL of the shape
    [<prefix>/upload/<version>/<public id>.<extension>], with no part
    "upload" before that one and no full stop in the public id,
    [getPublicIdFromUrl] returns the public id, folders included. *)
Theorem getPublicIdFromUrl_delivery_url prefix version id ext :
  "upload" ∉ split_on slash prefix ->
  contains slash version = false ->
  contains period id = false ->
  getPublicIdFromUrl
    (prefix +:+ "/upload/" +:+ version +:+ "/" +:+ id +:+ "." +:+ ext)
  = id.
Proof.
  intros Hprefix Hversion Hid. unfold getPublicIdFromUrl.
  change (prefix +:+ "/upload/" +:+ version +:+ "/" +:+ id +:+ "." +:+ ext)
    with (prefix +:+ String slash
            ("upload" +:+ String slash
               (version +:+ String slash (id +:+ String period ext)))).
  rewrite !split_on_append.
  rewrite (split_on_free slash "upload") by done.
  rewrite (split_on_free slash version) by done.
  change ([ "upload" ] ++ [version] ++ ?l)
    with ("upload" :: [version] ++ l).
  rewrite indexOf_plus_2_first by done.
  rewrite (drop_app_add (split_on slash prefix)).
  change (drop 2 ("upload" :: [version] ++ ?l)) with l.
  rewrite concat_split_on.
  by apply hd_split_on_append.
Qed.

(** X2. The public id that [getPublicIdFromUrl] returns never has a
    full stop in it, whatever the URL: a public id that has one is cut
    short. *)
Theorem getPublicIdFromUrl_no_period url :
  contains period (getPublicIdFromUrl url) = false.
Proof. unfold getPublicIdFromUrl. apply hd_split_on_free. Qed.

(** X3. For a URL whose file follows "upload" at once, without a
    version part, [getPublicIdFromUrl] returns the empty string. *)
Theorem getPublicIdFromUrl_without_version prefix file :
  "upload" ∉ split_on slash prefix ->
  contains slash file = false ->
  getPublicIdFromUrl (prefix +:+ "/upload/" +:+ file) = "".
Proof.
  intros Hprefix Hfile. unfold getPublicIdFromUrl.
  change (prefix +:+ "/upload/" +:+ file)
    with (prefix +:+ String slash ("upload" +:+ String slash file)).
  rewrite !split_on_append.
  rewrite (split_on_free slash "upload") by done.
  rewrite (split_on_free slash file) by done.
  change (["upload"] ++ [file]) with ("upload" :: [file]).
  rewrite indexOf_plus_2_first by done.
  rewrite (drop_app_add (split_on slash prefix)). done.
Qed.

(** Witness of X1: the avatar URL of the notes of the repository. *)
Lemma getPublicIdFromUrl_delivery_url_witness :
  getPublicIdFromUrl
    ("http://res.cloudinary.com/ddup4sjmq/image" +:+ "/upload/"
       +:+ "v1749791935" +:+ "/" +:+ "vph3tad5yxsg10ywlgqb" +:+ "." +:+ "jpg")
  = "vph3tad5yxsg10ywlgqb".
Proof.
  apply (getPublicIdFromUrl_delivery_url
           "http://res.cloudinary.com/ddup4sjmq/image" "v1749791935"
           "vph3tad5yxsg10ywlgqb" "jpg").
  - apply (bool_decide_unpack _). vm_compute. exact I.
  - reflexivity.
  - reflexivity.
Defined.

(** Witness of X3. *)
Lemma getPublicIdFromUrl_without_version_witness :
  getPublicIdFromUrl
    ("https://res.cloudinary.com/demo/image" +:+ "/upload/" +:+ "image.jpg")
  = "".
Proof.
  apply (getPublicIdFromUrl_without_version
           "https://res.cloudinary.com/demo/image" "image.jpg").
  - apply (bool_decide_unpack _). vm_compute. exact I.
  - reflexivity.
Defined.

(** ** path.resolve *)

Lemma prefix_empty s : String.prefix "" s = true.
Proof. by destruct s. Qed.

Lemma contains_append c a b :
  contains c (a +:+ b) = contains c a || contains c b.
Proof. induction a as [|x a IH]; simpl; [done|]. by rewrite IH, orb_assoc. Qed.

Lemma push_segment_kept stack seg :
  contains slash seg = false ->
  Forall kept_segment stack ->
  Forall kept_segment (push_segment stack seg).
Proof.
  intros Hseg Hstack. unfold push_segment.
  destruct (String.eqb_spec seg ""); [done|].
  destruct (String.eqb_spec seg "."); [done|]. simpl.
  destruct (String.eqb_spec seg "..").
  - destruct stack; [done|]. by apply Forall_cons in Hstack as [_ ?].
  - by constructor.
Qed.

Lemma fold_push_segment_kept segs stack :
  Forall (fun seg => contains slash seg = false) segs ->
  Forall kept_segment stack ->
  Forall kept_segment (fold_left push_segment segs stack).
Proof.
  revert stack. induction segs as [|seg segs IH]; intros stack Hsegs Hstack;
    [done|].
  apply Forall_cons in Hsegs as [Hseg Hsegs]. simpl.
  apply IH; [done|]. by apply push_segment_kept.
Qed.

(** The segments of a resolved path are all kept ones. *)
Lemma normalize_segments_kept s :
  Forall kept_segment (normalize_segments (split_on slash s)).
Proof.
  unfold normalize_segments. apply Forall_rev.
  apply fold_push_segment_kept; [apply split_on_parts_free|done].
Qed.

Lemma fold_push_segment_of_kept segs stack :
  Forall kept_segment segs ->
  fold_left push_segment segs stack = rev segs ++ stack.
Proof.
  revert stack. induction segs as [|seg segs IH]; intros stack Hsegs; [done|].
  apply Forall_cons in Hsegs as [(Hne & Hdot & Hdots & _) Hsegs]. simpl.
  rewrite IH by done. unfold push_segment.
  destruct (String.eqb_spec seg ""); [done|].
  destruct (String.eqb_spec seg "."); [done|]. simpl.
  destruct (String.eqb_spec seg ".."); [done|].
  by rewrite <- app_assoc.
Qed.

(** Kept segments, joined behind the root, resolve to themselves. *)
Lemma normalize_rooted segs :
  Forall kept_segment segs ->
  normalize_segments
    (split_on slash ("/" +:+ String.concat "/" segs))
  = segs.
Proof.
  intros Hsegs.
  change ("/" +:+ String.concat "/" segs)
    with ("" +:+ String slash (String.concat (String slash "") segs)).
  rewrite split_on_append. simpl split_on at 1.
  unfold normalize_segments.
  destruct segs as [|seg segs]; [done|].
  rewrite split_on_concat; [|done|].
  - change (fold_left push_segment ([""] ++ seg :: segs) [])
      with (fold_left push_segment (seg :: segs) []).
    rewrite fold_push_segment_of_kept by done.
    by rewrite app_nil_r, rev_involutive.
  - eapply Forall_impl; [exact Hsegs|]. by intros ? (_ & _ & _ & ?).
Qed.

(** [path.resolve] is idempotent, and its result does not depend
    on the working directory once the path is resolved: resolving a
    resolved path, from any directory, gives the same path. *)
Theorem path_resolve_idempotent cwd cwd' p abs :
  path_resolve cwd (Some p) = inr abs ->
  path_resolve cwd' (Some abs) = inr abs.
Proof.
  unfold path_resolve. intros [= <-]. f_equal.
  pose proof (normalize_segments_kept
                (if String.prefix "/" p then p else cwd +:+ "/" +:+ p))
    as Hsegs.
  revert Hsegs.
  generalize (normalize_segments
                (split_on slash
                   (if String.prefix "/" p then p else cwd +:+ "/" +:+ p)))
    as segs.
  intros segs Hsegs.
  assert (String.prefix "/" ("/" +:+ String.concat "/" segs) = true) as ->
    by (simpl; apply prefix_empty).
  by rewrite normalize_rooted.
Qed.

(** An instance: the path multer gives to an uploaded file. *)
Lemma path_resolve_idempotent_witness :
  path_resolve "/srv/app" (Some "./public/temp/../temp/a.png")
  = inr "/srv/app/public/temp/a.png"
  /\ path_resolve "/elsewhere" (Some "/srv/app/public/temp/a.png")
     = inr "/srv/app/public/temp/a.png".
Proof.
  split; [reflexivity|].
  apply (path_resolve_idempotent "/srv/app" "/elsewhere"
           "./public/temp/../temp/a.png").
  reflexivity.
Defined.

(** What [path.resolve] returns is an absolute path in normal
    form: it starts at the root and none of its segments is empty, "."
    or "..". *)
Theorem path_resolve_normal_form cwd p abs :
  path_resolve cwd (Some p) = inr abs ->
  exists segs,
    abs = "/" +:+ String.concat "/" segs
    /\ Forall kept_segment segs
    /\ (segs <> [] -> split_on slash abs = "" :: segs).
Proof.
  unfold path_resolve. intros [= <-].
  set (segs := normalize_segments (split_on slash _)).
  assert (Forall kept_segment segs) as Hsegs
    by apply normalize_segments_kept.
  exists segs. split; [done|]. split; [done|].
  intros Hne.
  change ("/" +:+ String.concat "/" segs)
    with ("" +:+ String slash (String.concat (String slash "") segs)).
  rewrite split_on_append, split_on_concat; [done|done|].
  eapply Forall_impl; [exact Hsegs|]. by intros ? (_ & _ & _ & ?).
Qed.

(** An instance of the normal form. *)
Lemma path_resolve_normal_form_witness :
  exists segs,
    "/srv/app/public/a.png" = "/" +:+ String.concat "/" segs
    /\ Forall kept_segment segs
    /\ (segs <> [] -> split_on slash "/srv/app/public/a.png" = "" :: segs).
Proof.
  apply (path_resolve_normal_form "/srv/app" "public//./temp/../a.png").
  reflexivity.
Defined.

(** ** White space *)

Lemma trim_start_empty s : trim_start s = "" <-> all_white s = true.
Proof.
  induction s as [|c s IH]; simpl; [done|].
  destruct (is_white_space c); simpl; [done|]. split; done.
Qed.

Lemma string_rev_acc_empty s acc :
  string_rev_acc s acc = "" <-> s = "" /\ acc = "".
Proof.
  revert acc. induction s as [|c s IH]; intros acc; simpl.
  - split; [done|]. by intros [_ ->].
  - rewrite IH. split; [by intros [_ ?]|by intros [? _]].
Qed.

Lemma all_white_rev_acc s acc :
  all_white (string_rev_acc s acc) = all_white s && all_white acc.
Proof.
  revert acc. induction s as [|c s IH]; intros acc; simpl; [done|].
  rewrite IH. simpl. by destruct (is_white_space c), (all_white s).
Qed.

Lemma all_white_trim_start s : all_white (trim_start s) = all_white s.
Proof.
  induction s as [|c s IH]; simpl; [done|].
  destruct (is_white_space c) eqn:Hc; simpl; [done|]. by rewrite Hc.
Qed.

(** [s.trim()] is empty exactly for a string of white space. *)
Lemma js_trim_empty s : js_trim s = "" <-> all_white s = true.
Proof.
  unfold js_trim, string_rev.
  rewrite string_rev_acc_empty, trim_start_empty, all_white_rev_acc.
  rewrite all_white_trim_start, andb_true_r.
  split; [by intros [? _]|done].
Qed.

Lemma field_is_blank_white field :
  field_is_blank field = true
  <-> exists s, field = Some s /\ all_white s = true.
Proof.
  destruct field as [s|]; simpl.
  - rewrite String.eqb_eq, js_trim_empty.
    split; [by exists s|by intros (? & [= <-] & ?)].
  - split; [done|by intros (? & ? & _)].
Qed.

(** ** The test of the fields, for every body *)

Lemma some_field_is_blank_true fields :
  some_field_is_blank fields = inr true
  <-> exists before s after,
        fields = before ++ Some (J_string s) :: after
        /\ all_white s = true
        /\ Forall string_or_nullish before.
Proof.
  induction fields as [|field fields IH].
  - split; [done|]. intros (before & s & after & Heq & _).
    by destruct before.
  - assert (string_or_nullish field ->
            field_is_blank (match field with
                            | Some (J_string s) => Some s
                            | _ => None
                            end) = false ->
            (exists before s after,
                field :: fields = before ++ Some (J_string s) :: after
                /\ all_white s = true
                /\ Forall string_or_nullish before)
            <-> some_field_is_blank fields = inr true) as Hnext.
    { intros Hfield Hblank. rewrite IH. split.
      - intros (before & s & after & Heq & Hs & Hbefore).
        destruct before as [|x before].
        + injection Heq as -> ->. exfalso.
          assert (field_is_blank (Some s) = true) as Htrue
            by (apply field_is_blank_white; by exists s).
          congruence.
        + injection Heq as -> ->.
          apply Forall_cons in Hbefore as [_ Hbefore].
          by exists before, s, after.
      - intros (before & s & after & -> & Hs & Hbefore).
        exists (field :: before), s, after.
        split; [done|]. split; [done|]. by apply Forall_cons. }
    cbn [some_field_is_blank].
    destruct field as [[| | |s0| |]|]; cbn [trim_receiver].
    + change (field_is_blank None) with false. cbv iota.
      symmetry. by apply Hnext.
    + split; [done|]. intros (before & s & after & Heq & _ & Hbefore).
      destruct before as [|x before]; [done|]. injection Heq as <- _.
      by apply Forall_cons in Hbefore as [? _].
    + split; [done|]. intros (before & s & after & Heq & _ & Hbefore).
      destruct before as [|x before]; [done|]. injection Heq as <- _.
      by apply Forall_cons in Hbefore as [? _].
    + destruct (field_is_blank (Some s0)) eqn:Hblank.
      * split; [intros _|done].
        apply field_is_blank_white in Hblank as (s & [= <-] & Hs).
        by exists [], s0, fields.
      * symmetry. by apply Hnext.
    + split; [done|]. intros (before & s & after & Heq & _ & Hbefore).
      destruct before as [|x before]; [done|]. injection Heq as <- _.
      by apply Forall_cons in Hbefore as [? _].
    + split; [done|]. intros (before & s & after & Heq & _ & Hbefore).
      destruct before as [|x before]; [done|]. injection Heq as <- _.
      by apply Forall_cons in Hbefore as [? _].
    + change (field_is_blank None) with false. cbv iota.
      symmetry. by apply Hnext.
Qed.

Lemma some_field_is_blank_throws before v after :
  Forall not_blank before ->
  ~ string_or_nullish (Some v) ->
  some_field_is_blank (before ++ Some v :: after)
  = inl (type_error "field?.trim is not a function").
Proof.
  intros Hbefore Hv.
  induction Hbefore as [|field before Hfield _ IH].
  - rewrite app_nil_l. cbn [some_field_is_blank]. by destruct v.
  - rewrite <- app_comm_cons. cbn [some_field_is_blank].
    destruct field as [[| | |s| |]|]; try done.
    cbn [trim_receiver field_is_blank].
    by destruct (String.eqb_spec (js_trim s) "").
Qed.

(** ** More of registerUser and loginUser *)

Section MoreRegisterLogin.
Context {P : Platform}.

(** X4. Going through fullName, email, username and password in this
    order, [registerUser] throws its "All fields are required" error
    exactly when it meets a string of white space only (the empty
    string included) and every field before that one is a string, null
    or missing; a missing or null field passes the test.  A value of
    another type (a number, a boolean, an array, an object) that comes
    before any blank string makes [field?.trim()] throw a TypeError
    instead.  Neither writes. *)
Theorem registerUser_blank_field body req db :
  (fst (registerUser_json body req db)
   = Throw (ApiError 400 "All fields are required")
   <-> exists before s after,
         json_checked_fields body = before ++ Some (J_string s) :: after
         /\ all_white s = true
         /\ Forall string_or_nullish before)
  /\ (fst (registerUser_json body req db)
      = Throw (ApiError 400 "All fields are required") ->
      snd (registerUser_json body req db) = db)
  /\ (forall before v after,
        json_checked_fields body = before ++ Some v :: after ->
        Forall not_blank before ->
        ~ string_or_nullish (Some v) ->
        registerUser_json body req db
        = (Throw (TypeError "field?.trim is not a function"), db)).
Proof.
  assert (some_field_is_blank (json_checked_fields body) = inr false ->
          fst (registerUser_json body req db)
          <> Throw (ApiError 400 "All fields are required")) as Hpassed.
  { intros Hfalse. unfold registerUser_json.
    fold (json_checked_fields body). rewrite Hfalse. run.
    destruct (User_findOne _ db); [done|].
    destruct (path_resolve process_cwd (first_file_path req "avatar"))
      as [e|abs]; run; [done|].
    destruct (path_resolve process_cwd (first_file_path req "coverImage"))
      as [e|cover]; run; [done|].
    unfold uploadOnCloudinary, create_user. run.
    repeat case_match; simplify_eq; done. }
  split; [|split].
  - rewrite <- some_field_is_blank_true.
    destruct (some_field_is_blank (json_checked_fields body))
      as [e|[|]] eqn:Htest.
    + unfold registerUser_json. fold (json_checked_fields body).
      rewrite Htest. done.
    + unfold registerUser_json. fold (json_checked_fields body).
      rewrite Htest. done.
    + split; [|done]. intros Hthrow. by destruct Hpassed.
  - destruct (some_field_is_blank (json_checked_fields body))
      as [e|[|]] eqn:Htest.
    + unfold registerUser_json. fold (json_checked_fields body).
      rewrite Htest. done.
    + unfold registerUser_json. fold (json_checked_fields body).
      rewrite Htest. done.
    + intros Hthrow. by destruct Hpassed.
  - intros before v after Hfields Hbefore Hv.
    unfold registerUser_json. fold (json_checked_fields body).
    rewrite Hfields, (some_field_is_blank_throws _ _ _ Hbefore Hv). done.
Qed.

(** X6. Whenever [registerUser] answers, the HTTP status is 201 while
    the body says statusCode 200, the data are the public fields of a
    record that is now stored, and the request passed every check on
    the way: no blank field, no stored user with its username or
    email, and a file for the avatar and one for the cover image; a
    request without a cover image never succeeds. *)
Theorem registerUser_success req db res db' :
  registerUser req db = (Return res, db') ->
  res_status res = 201
  /\ (exists created,
        created ∈ users db'
        /\ res_body res
           = B_ApiResponse
               (new_ApiResponse 200 (D_createdUser (select_public created))
                  "User registered Successfully"))
  /\ existsb field_is_blank (checked_fields req) = false
  /\ User_findOne (or_username_email (req_body req !! "username")
                                     (req_body req !! "email")) db = None
  /\ is_Some (first_file_path req "avatar")
  /\ is_Some (first_file_path req "coverImage").
Proof.
  unfold registerUser. fold (checked_fields req).
  destruct (existsb field_is_blank (checked_fields req)); [done|]. run.
  destruct (User_findOne _ db); [done|].
  destruct (first_file_path req "avatar") as [avatarFilePath|]; [|done].
  destruct (first_file_path req "coverImage") as [coverImageLocalPath|];
    [|done].
  destruct (path_resolve process_cwd (Some avatarFilePath))
    as [e|abs] eqn:Hresolve; run; [done|].
  destruct (path_resolve process_cwd (Some coverImageLocalPath))
    as [e|cover]; run; [done|].
  rewrite (path_resolve_truthy _ _ _ Hresolve). simpl.
  destruct (uploadOnCloudinary _ db) as [[avatar|e] db1]; [|done].
  destruct (uploadOnCloudinary _ db1) as [[coverImage|e] db2]; [|done].
  destruct avatar as [avatar|]; [|done].
  destruct (req_body req !! "username") as [name|]; [|done].
  destruct (create_user _ db2) as [[user|e] db3]; [|done].
  destruct (List.find (has_id (user_id user)) (users db3))
    as [created|] eqn:Hfind; [|done].
  intros [= <- <-].
  split; [done|]. split; [|by repeat split; try done; eexists].
  exists created. split; [|done].
  apply find_some in Hfind as [Hin _].
  by apply list_elem_of_In.
Qed.

(** X7. [loginUser] never throws its 404 error: for a request that
    names no stored user it reads [user._id] of [null] first and throws
    a TypeError, which leaves the handler without a status code. *)
Theorem loginUser_unknown_user now req db :
  (forall msg, fst (loginUser now req db) <> Throw (ApiError 404 msg))
  /\ (truthy (req_body req !! "username") || truthy (req_body req !! "email")
      = true ->
      User_findOne (or_username_email (req_body req !! "username")
                                      (req_body req !! "email")) db = None ->
      loginUser now req db
      = (Throw (TypeError "Cannot read properties of null (reading '_id')"),
         db)).
Proof.
  split.
  - intros msg. unfold loginUser.
    destruct (negb _ && negb _); [done|]. run.
    destruct (User_findOne _ db) as [found|]; [|done].
    destruct (isPasswordCorrect found _) as [e|[|]]; run; [done| |done].
    simpl.
    destruct (generateAccessAndRefereshTokens now (user_id found) db)
      as [gen db1] eqn:Hgen.
    apply generate_tokens_inv in Hgen
      as [(user & at_ & rt & -> & _)|[-> ->]]; done.
  - intros Hnamed Hnone. unfold loginUser.
    assert (negb (truthy (req_body req !! "username"))
            && negb (truthy (req_body req !! "email")) = false) as ->.
    { destruct (truthy (req_body req !! "username")),
               (truthy (req_body req !! "email")); done. }
    run. by rewrite Hnone.
Qed.

End MoreRegisterLogin.

(** ** Sessions: composition and frame *)

Lemma length_updateOne filter f l : length (updateOne filter f l) = length l.
Proof.
  induction l as [|u l IH]; simpl; [done|].
  destruct (filter u); simpl; by rewrite ?IH.
Qed.

Lemma token_update_frame id t db :
  keeps_profiles id db
    (set_users (updateOne (has_id id) (set_refreshToken t) (users db)) db).
Proof.
  split; [done|]. split; [apply length_updateOne|]. split.
  - intros id' Hne. simpl. by apply find_updateOne_other.
  - intros u Hu. simpl in *. rewrite find_updateOne_same by done.
    rewrite Hu. by eexists.
Qed.

Section MoreSessions.
Context {P : Platform}.

(** A refresh that passes the four checks succeeds when the two tokens
    can be generated. *)
Lemma refreshAccessToken_accepts now req db user at_ rt :
  refresh_validated now req db user ->
  generateAccessToken user now = inr at_ ->
  generateRefreshToken user now = inr rt ->
  exists res,
    refreshAccessToken now req db = (Return res, rotated user rt db)
    /\ issues_pair res at_ rt.
Proof.
  intros (token & decoded & Htok & Hne & Hv & Hu & Hstored) Ha Hr.
  unfold refreshAccessToken. rewrite Htok.
  assert (negb (truthy (Some token)) = false) as ->.
  { simpl. by destruct (String.eqb_spec token ""). }
  run. rewrite Hv. run. rewrite Hu.
  rewrite bool_decide_eq_true_2 by done. simpl.
  unfold generateAccessAndRefereshTokens. run.
  rewrite (findById_again _ _ _ Hu), Ha. run. rewrite Hr. run.
  eexists. split; [reflexivity|done].
Qed.

(** X8. The refresh token that a login issues passes the four checks
    of [refreshAccessToken] afterwards: presented while it verifies for
    the user who logged in, it is accepted whenever the next pair can
    be generated, and that pair is stored and sent. *)
Theorem login_then_refresh now req db res db' at_ rt now' req' decoded :
  loginUser now req db = (Return res, db') ->
  issues_pair res at_ rt ->
  incomingRefreshToken req' = Some rt ->
  rt <> "" ->
  jwt_verify REFRESH_TOKEN_SECRET rt now' = inr decoded ->
  payload_id decoded
  = user_id <$> User_findOne (or_username_email (req_body req !! "username")
                                                (req_body req !! "email")) db ->
  exists user,
    refresh_validated now' req' db' user
    /\ forall at2 rt2,
         generateAccessToken user now' = inr at2 ->
         generateRefreshToken user now' = inr rt2 ->
         exists res',
           refreshAccessToken now' req' db' = (Return res', rotated user rt2 db')
           /\ issues_pair res' at2 rt2.
Proof.
  intros Hlogin [_ Hcookies] Htok Hne Hv Hid.
  apply loginUser_inv in Hlogin
    as (found & user & at' & rt' & Hfound & _ & Hu & _ & _ & [_ Hcookies'] & ->).
  rewrite Hcookies in Hcookies'. injection Hcookies' as <- <-.
  rewrite Hfound in Hid. simpl in Hid.
  pose proof (find_has_id _ _ _ Hu) as Huid.
  exists (set_refreshToken (Some rt) user).
  assert (refresh_validated now' req' (rotated user rt db)
            (set_refreshToken (Some rt) user)) as Hval.
  { exists rt, decoded. repeat split; try done.
    rewrite Hid, <- Huid. unfold rotated. simpl.
    rewrite find_updateOne_same by done.
    simpl in Hu. rewrite Huid. by rewrite Hu. }
  split; [done|].
  intros at2 rt2 Ha Hr.
  by apply refreshAccessToken_accepts.
Qed.

(** X9. A successful login, a successful refresh and a logout write
    to the record of one user only, and there they leave the id, the
    username, the email, the full name, the avatar, the cover image
    and the watch history as they were.  The videos and the records of
    the other users stay, and no user record comes or goes. *)
Theorem session_operations_frame now req db res db' :
  (loginUser now req db = (Return res, db') ->
   exists id, keeps_profiles id db db')
  /\ (refreshAccessToken now req db = (Return res, db') ->
      exists id, keeps_profiles id db db')
  /\ (forall user, req_user req = Some user ->
      keeps_profiles (pub_id user) db (snd (logoutUser req db))).
Proof.
  split; [|split].
  - intros Hlogin. apply loginUser_inv in Hlogin
      as (found & user & at_ & rt & _ & _ & _ & _ & _ & _ & ->).
    exists (user_id user). apply token_update_frame.
  - intros Hrefresh. apply refreshAccessToken_inv in Hrefresh
      as [(user & at_ & rt & res' & _ & _ & _ & _ & _ & ->)|(msg & [=] & _)].
    exists (user_id user). apply token_update_frame.
  - intros user Huser.
    destruct (logoutUser_run req db user Huser) as (res' & -> & _).
    apply token_update_frame.
Qed.

(** X10. A login that throws writes nothing: the database after it is
    the database before it. *)
Theorem loginUser_rejection_writes_nothing now req db e :
  fst (loginUser now req db) = Throw e ->
  snd (loginUser now req db) = db.
Proof.
  unfold loginUser.
  destruct (negb _ && negb _); [done|]. run.
  destruct (User_findOne _ db) as [found|]; [|done].
  destruct (isPasswordCorrect found _) as [e'|[|]]; run; [done| |done].
  simpl.
  destruct (generateAccessAndRefereshTokens now (user_id found) db)
    as [gen db1] eqn:Hgen.
  apply generate_tokens_inv in Hgen
    as [(user & at_ & rt & -> & _)|[-> ->]]; done.
Qed.

End MoreSessions.

(** Witness of X8: alice logs in at second 100 and refreshes at 200. *)
Lemma login_then_refresh_witness :
  exists user,
    refresh_validated (P:=Demo.platform) 200
      (Demo.refresh_with "refresh.a1.100") Demo.db1 user
    /\ forall at2 rt2,
         generateAccessToken (Platform:=Demo.platform) user 200 = inr at2 ->
         generateRefreshToken (Platform:=Demo.platform) user 200 = inr rt2 ->
         exists res',
           refreshAccessToken (P:=Demo.platform) 200
             (Demo.refresh_with "refresh.a1.100") Demo.db1
           = (Return res', rotated user rt2 Demo.db1)
           /\ issues_pair res' at2 rt2.
Proof.
  apply (login_then_refresh (P:=Demo.platform) 100 Demo.login_alice
           Demo.db0 (Demo.login_response "access.a1.100" "refresh.a1.100")
           Demo.db1 "access.a1.100" "refresh.a1.100" 200
           (Demo.refresh_with "refresh.a1.100")
           {| payload_id := Some "a1" |});
    try (vm_compute; reflexivity); try done.
Defined.

(** Witness of X10: bob's email with alice's password. *)
Lemma loginUser_rejection_witness :
  snd (loginUser (P:=Demo.platform) 100 Demo.login_bob_wrong_password Demo.db0)
  = Demo.db0.
Proof.
  apply (loginUser_rejection_writes_nothing (P:=Demo.platform) 100
           Demo.login_bob_wrong_password Demo.db0
           (ApiError 401 "Invalid user credentials, Wrong Password!!!!!!")).
  vm_compute. reflexivity.
Defined.

(** Witness of X7: a login under a name that nobody has. *)
Lemma loginUser_unknown_user_witness :
  loginUser (P:=Demo.platform) 100
    (Demo.with_body [("username", "nobody"); ("password", "x")]) Demo.db0
  = (Throw (TypeError "Cannot read properties of null (reading '_id')"),
     Demo.db0).
Proof.
  apply (proj2 (loginUser_unknown_user (P:=Demo.platform) 100
                  (Demo.with_body [("username", "nobody"); ("password", "x")])
                  Demo.db0));
    vm_compute; reflexivity.
Defined.

(** Witness of X6: carol registers with both files. *)
Lemma registerUser_success_witness :
  exists res db',
    registerUser (P:=Demo.platform)
      (Demo.register_carol [("avatar", [Demo.upload "c.png"]);
                            ("coverImage", [Demo.upload "bg.png"])]) Demo.db0
    = (Return res, db')
    /\ res_status res = 201
    /\ is_Some (first_file_path
                  (Demo.register_carol
                     [("avatar", [Demo.upload "c.png"]);
                      ("coverImage", [Demo.upload "bg.png"])]) "coverImage").
Proof.
  eexists _, _. split; [vm_compute; reflexivity|].
  match goal with |- res_status ?res = 201 /\ _ =>
    pose proof (registerUser_success (P:=Demo.platform)
                  (Demo.register_carol
                     [("avatar", [Demo.upload "c.png"]);
                      ("coverImage", [Demo.upload "bg.png"])])
                  Demo.db0 res
                  (set_users [Demo.alice; Demo.bob; Demo.carol] Demo.db0))
      as Hsuccess end.
  destruct Hsuccess as (Hstatus & _ & _ & _ & _ & Hcover);
    [vm_compute; reflexivity|].
  by split.
Defined.

(** ** More of verifyJWT and of the dispatch *)

Lemma substring_all s : String.substring 0 (String.length s) s = s.
Proof. induction s as [|c s IH]; simpl; [done|]. by rewrite IH. Qed.

(** A header that starts with "Bearer " loses that start. *)
Lemma js_replace_bearer t : js_replace "Bearer " "" ("Bearer " +:+ t) = t.
Proof.
  simpl. rewrite prefix_empty. simpl.
  rewrite Nat.sub_0_r. apply substring_all.
Qed.

Section MoreRouter.
Context {P : Platform}.
Variable other_controller : Handler -> N -> Request -> M Step.

(** A request with a validated access token goes on with [req.user]. *)
Lemma verifyJWT_accepts now req db user :
  access_validated now req db user ->
  verifyJWT now req db
  = (Return (set_req_user (select_public user) req), db).
Proof.
  intros (token & decoded & Htok & Hne & Hv & Hu).
  unfold verifyJWT. run. rewrite Htok.
  assert (negb (truthy (Some token)) = false) as ->.
  { simpl. by destruct (String.eqb_spec token ""). }
  rewrite Hv. run. by rewrite Hu.
Qed.

(** X12. [verifyJWT] lets a request through exactly when it finds a
    non-empty token that verifies against the access secret and names a
    stored user; the request goes on unchanged but for [req.user],
    which is that user's record without password and refresh token.
    [verifyJWT] never writes. *)
Theorem verifyJWT_accepts_iff now req db req' :
  (fst (verifyJWT now req db) = Return req'
   <-> exists user,
         access_validated now req db user
         /\ req' = set_req_user (select_public user) req)
  /\ snd (verifyJWT now req db) = db.
Proof.
  unfold verifyJWT, access_validated. run.
  destruct (accessTokenOf req) as [token|].
  2: { split; [|done]. split; [done|]. by intros (? & (? & ? & ? & _) & _). }
  destruct (negb (truthy (Some token))) eqn:Htruthy.
  { split; [|done]. split; [done|].
    intros (user & (token' & decoded & [= <-] & Hne & _) & _).
    simpl in Htruthy. by destruct (String.eqb_spec token ""). }
  assert (token <> "") as Hne by (intros ->; done).
  destruct (jwt_verify ACCESS_TOKEN_SECRET token now) as [e|decoded] eqn:Hv;
    run.
  { split; [|done]. split; [done|].
    intros (user & (token' & decoded & [= <-] & _ & Hv' & _) & _).
    congruence. }
  destruct (User_findById (payload_id decoded) db) as [user|] eqn:Hu.
  - split; [|done]. split.
    + intros [= <-]. exists user. split; [|done]. by exists token, decoded.
    + intros (user' & (token' & decoded' & [= <-] & _ & Hv' & Hu') & ->).
      simpl. congruence.
  - split; [|done]. split; [done|].
    intros (user' & (token' & decoded' & [= <-] & _ & Hv' & Hu') & _).
    congruence.
Qed.

(** X13. [verifyJWT] reads the token from the accessToken cookie when
    that is not empty, whatever the Authorization header says; without
    such a cookie it takes what follows "Bearer " in the header. *)
Theorem accessTokenOf_sources req :
  (truthy (req_cookies req !! "accessToken") = true ->
   accessTokenOf req = req_cookies req !! "accessToken")
  /\ (forall t,
        truthy (req_cookies req !! "accessToken") = false ->
        req_headers req !! "authorization" = Some ("Bearer " +:+ t) ->
        accessTokenOf req = Some t).
Proof.
  unfold accessTokenOf, js_or. split.
  - by intros ->.
  - intros t -> ->. exact (f_equal Some (js_replace_bearer t)).
Qed.


(** The routes before the first that matches play no part. *)
Lemma run_routes_first_match before r after method segs now req db :
  Forall (fun r => route_matches r method segs = false) before ->
  route_matches r method segs = true ->
  run_routes other_controller (before ++ r :: after) method segs now req db
  = match run_stack other_controller (route_stack r) now req db with
    | (Next req', db') =>
        run_routes other_controller after method segs now req' db'
    | (NextError err, db') => (NextError err, db')
    | (Send res, db') => (Send res, db')
    end.
Proof.
  intros Hbefore Hr. induction before as [|r' before IH]; simpl.
  - by rewrite Hr.
  - apply Forall_cons in Hbefore as [Hr' Hbefore]. rewrite Hr'. by apply IH.
Qed.

Lemma run_routes_at i r routes method segs now req db :
  routes !! i = Some r ->
  Forall (fun r => route_matches r method segs = false) (take i routes) ->
  route_matches r method segs = true ->
  run_routes other_controller routes method segs now req db
  = match run_stack other_controller (route_stack r) now req db with
    | (Next req', db') =>
        run_routes other_controller (drop (S i) routes) method segs now req' db'
    | (NextError err, db') => (NextError err, db')
    | (Send res, db') => (Send res, db')
    end.
Proof.
  intros Hi Hbefore Hr.
  rewrite <- (take_drop_middle routes i r Hi) at 1.
  by apply run_routes_first_match.
Qed.


(** X15. POST /api/v1/users/login needs no access token: the
    application answers with the response of [loginUser], and with
    the error page of Express, under the status of the error or 500,
    for whatever [loginUser] throws; for a name that no user has this
    is a 500. *)
Theorem login_through_app now req db :
  handle other_controller
    {| http_method := POST; http_path := "/api/v1/users/login";
       http_request := req |} now db
  = match loginUser now req db with
    | (Return res, db') => (res, db')
    | (Throw err, db') => (finalhandler (Some err), db')
    end
  /\ (truthy (req_body req !! "username") || truthy (req_body req !! "email")
      = true ->
      User_findOne (or_username_email (req_body req !! "username")
                                      (req_body req !! "email")) db = None ->
      res_status
        (fst (handle other_controller
                {| http_method := POST; http_path := "/api/v1/users/login";
                   http_request := req |} now db))
      = 500).
Proof.
  assert (handle other_controller
            {| http_method := POST; http_path := "/api/v1/users/login";
               http_request := req |} now db
          = match loginUser now req db with
            | (Return res, db') => (res, db')
            | (Throw err, db') => (finalhandler (Some err), db')
            end) as Hhandle.
  { unfold handle, app.
    cbn [run_layers http_method http_path http_request].
    change (strip_prefix (segments "/api/v1/users/")
              (segments "/api/v1/users/login")) with (Some ["login"]).
    cbv iota.
    rewrite (run_routes_at 1 _ router POST ["login"] now req db eq_refl);
      [|by repeat constructor|done].
    cbn [route_stack run_stack run_handler].
    unfold asyncHandler, sends, bind.
    destruct (loginUser now req db) as [[res|err] db']; done. }
  split; [exact Hhandle|].
  intros Hnamed Hnone. rewrite Hhandle.
  assert (loginUser now req db
          = (Throw (TypeError "Cannot read properties of null (reading '_id')"),
             db)) as ->; [|done].
  unfold loginUser.
  assert (negb (truthy (req_body req !! "username"))
          && negb (truthy (req_body req !! "email")) = false) as ->.
  { destruct (truthy (req_body req !! "username")),
             (truthy (req_body req !! "email")); done. }
  run. by rewrite Hnone.
Qed.

(** X16. POST /api/v1/users/logout with a valid access token goes
    through [verifyJWT] to [logoutUser]: the answer is 200, both
    cookies are cleared and the user named by the token has no refresh
    token stored any more. *)
Theorem logout_through_app now req db user :
  access_validated now req db user ->
  exists res db',
    handle other_controller
      {| http_method := POST; http_path := "/api/v1/users/logout";
         http_request := req |} now db
    = (res, db')
    /\ res_status res = 200
    /\ res_cleared res = ["accessToken"; "refreshToken"]
    /\ stored_token (user_id user) db' = None.
Proof.
  intros Hvalid.
  pose proof (verifyJWT_accepts now req db user Hvalid) as Hverify.
  destruct (logoutUser_run (set_req_user (select_public user) req) db
              (select_public user) eq_refl) as (res & Hlogout & Hstatus & Hcleared).
  exists res. eexists. split; [|split; [exact Hstatus|split; [exact Hcleared|]]].
  - unfold handle, app.
    cbn [run_layers http_method http_path http_request].
    change (strip_prefix (segments "/api/v1/users/")
              (segments "/api/v1/users/logout")) with (Some ["logout"]).
    cbv iota.
    rewrite (run_routes_at 2 _ router POST ["logout"] now req db eq_refl);
      [|by repeat constructor|done].
    cbn [route_stack run_stack run_handler].
    unfold asyncHandler, calls_next, sends, bind.
    rewrite Hverify. unfold ret at 1. rewrite Hlogout. unfold ret. reflexivity.
  - unfold stored_token. simpl.
    rewrite find_updateOne_same by done.
    by destruct (List.find (has_id (user_id user)) (users db)).
Qed.

End MoreRouter.


(** Witness of X16: alice logs out with her access token in a cookie. *)
Lemma logout_through_app_witness :
  exists res db',
    handle (P:=Demo.platform) Demo.no_other_controller
      {| http_method := POST; http_path := "/api/v1/users/logout";
         http_request := Demo.with_cookies [("accessToken", "access.a1.100")] |}
      200 Demo.db1
    = (res, db')
    /\ res_status res = 200
    /\ res_cleared res = ["accessToken"; "refreshToken"]
    /\ stored_token "a1" db' = None.
Proof.
  apply (logout_through_app (P:=Demo.platform) Demo.no_other_controller 200
           (Demo.with_cookies [("accessToken", "access.a1.100")]) Demo.db1
           (set_refreshToken (Some "refresh.a1.100") Demo.alice)).
  exists "access.a1.100", {| payload_id := Some "a1" |}.
  repeat split; try done; vm_compute; reflexivity.
Defined.

(** ** More of getWatchHistory, and getUserChannelProfile *)

Lemma head_filter_id id l :
  head (filter (fun u => user_id u = id) l) = List.find (has_id id) l.
Proof.
  induction l as [|u l IH]; [done|].
  rewrite filter_cons. simpl. unfold has_id at 1.
  destruct (decide (user_id u = id)) as [Hu|Hu].
  - by rewrite bool_decide_eq_true_2.
  - by rewrite bool_decide_eq_false_2.
Qed.

Lemma head_fmap_list {A B} (f : A -> B) (l : list A) :
  head (f <$> l) = f <$> head l.
Proof. by destruct l. Qed.

Lemma lower_char_idempotent c : lower_char (lower_char c) = lower_char c.
Proof. destruct c as [[] [] [] [] [] [] [] []]; reflexivity. Qed.

Lemma toLowerCase_idempotent s : toLowerCase (toLowerCase s) = toLowerCase s.
Proof.
  induction s as [|c s IH]; simpl; [done|].
  by rewrite lower_char_idempotent, IH.
Qed.

Lemma truthy_trim s : truthy (Some (js_trim s)) = negb (all_white s).
Proof.
  simpl. destruct (String.eqb_spec (js_trim s) "") as [Hempty|Hne].
  - apply js_trim_empty in Hempty. by rewrite Hempty.
  - destruct (all_white s) eqn:Hwhite; [|done].
    by apply js_trim_empty in Hwhite.
Qed.

Section WatchAndChannel.

(** X17. For the record of [req.user], [getWatchHistory] answers 200
    with exactly the stored videos whose id is in the record's watch
    history, each with its id, its title and, as owner, the id, full
    name, username and avatar of the user it belongs to (no owner when
    that user is not stored).  An id that no stored video has is left
    out, and a video comes once even when the history lists it twice.
    Nothing is written. *)
Theorem getWatchHistory_contents req db user u :
  req_user req = Some user ->
  User_findById (Some (pub_id user)) db = Some u ->
  exists res l,
    getWatchHistory req db = (Return res, db)
    /\ res_status res = 200
    /\ res_body res
       = B_ApiResponse
           (new_ApiResponse 200 (D_watchHistory l)
              "Watch history fetched successfully")
    /\ (forall w,
          w ∈ l
          <-> exists v,
                v ∈ videos db
                /\ video_id v ∈ watchHistory u
                /\ wv_id w = video_id v
                /\ wv_title w = video_title v
                /\ wv_owner w
                   = project_owner
                       <$> User_findById (Some (video_owner v)) db)
    /\ (forall id,
          id ∈ wv_id <$> l
          <-> id ∈ watchHistory u /\ id ∈ video_id <$> videos db)
    /\ (NoDup (video_id <$> videos db) -> NoDup (wv_id <$> l)).
Proof.
  intros Huser Hu. simpl in Hu. rewrite <- head_filter_id in Hu.
  destruct (filter (fun u => user_id u = pub_id user) (users db))
    as [|u' rest] eqn:Hfilter; [done|]. injection Hu as ->.
  destruct (getWatchHistory_returns req db user u rest Huser Hfilter)
    as (res & Hrun & Hstatus & Hbody).
  exists res, (lookup_watchHistory db u).
  split; [done|]. split; [done|]. split; [done|]. split.
  - intros w. unfold lookup_watchHistory. rewrite list_elem_of_fmap.
    assert (forall v,
               w = video_pipeline db v
               <-> wv_id w = video_id v
                   /\ wv_title w = video_title v
                   /\ wv_owner w
                      = project_owner
                          <$> User_findById (Some (video_owner v)) db)
      as Hpipeline.
    { intros v. unfold video_pipeline, lookup_owner.
      rewrite head_fmap_list.
      rewrite head_filter_id.
      change (User_findById (Some (video_owner v)) db)
        with (List.find (has_id (video_owner v)) (users db)).
      destruct w as [i t o]. cbn [wv_id wv_title wv_owner]. split.
      - by intros [= -> -> ->].
      - by intros (-> & -> & ->). }
    split.
    + intros (v & Hw & Hin). apply list_elem_of_filter in Hin as [Hhist Hin].
      exists v. split; [done|]. split; [done|]. by apply Hpipeline.
    + intros (v & Hin & Hhist & Hfields). exists v.
      split; [by apply Hpipeline|]. by apply list_elem_of_filter.
  - rewrite lookup_watchHistory_ids. split.
    + intros id. by rewrite list_elem_of_filter.
    + apply NoDup_filter.
Qed.


(** X19. [getUserChannelProfile] throws its 400 error exactly when
    the parameter is missing or is white space only, and its 404 error
    exactly when the parameter is neither and no stored user has its
    lower-cased form as username. *)
Theorem getUserChannelProfile_errors subscriptions param req db :
  (fst (getUserChannelProfile subscriptions param req db)
   = Throw (ApiError 400 "username is missing")
   <-> param = None \/ exists s, param = Some s /\ all_white s = true)
  /\ (fst (getUserChannelProfile subscriptions param req db)
      = Throw (ApiError 404 "channel does not exists")
      <-> exists name,
            param = Some name
            /\ all_white name = false
            /\ forall u, u ∈ users db -> username u <> toLowerCase name).
Proof.
  unfold getUserChannelProfile.
  destruct param as [name|].
  2: { split; [split; [by left|done]|].
       split; [done|by intros (? & ? & _)]. }
  rewrite truthy_trim. destruct (all_white name) eqn:Hwhite; simpl.
  { split; [split; [intros _; right; by exists name|done]|].
    split; [done|]. intros (name' & [= <-] & ? & _). congruence. }
  run. unfold aggregate_channel.
  destruct (filter (fun u => username u = toLowerCase name) (users db))
    as [|u rest] eqn:Hfilter; simpl.
  - split.
    + split; [done|]. intros [|(s & [= <-] & ?)]; [done|congruence].
    + split; [intros _|done]. exists name. split; [done|]. split; [done|].
      intros u Hin Hname.
      assert (u ∈ filter (fun u => username u = toLowerCase name) (users db))
        as Hu by by apply list_elem_of_filter.
      rewrite Hfilter in Hu. by apply elem_of_nil in Hu.
  - split.
    + split; [done|]. intros [|(s & [= <-] & ?)]; [done|congruence].
    + split; [done|]. intros (name' & [= <-] & _ & Hnone).
      assert (u ∈ filter (fun u => username u = toLowerCase name) (users db))
        as Hu by (rewrite Hfilter; left).
      apply list_elem_of_filter in Hu as [Hname Hin].
      exfalso. by apply (Hnone u).
Qed.

(** X20. Every profile that [getUserChannelProfile] answers with has
    a username that lower-casing leaves as it is: a user stored under a
    name with a capital letter has no channel page, under any
    parameter. *)
Theorem getUserChannelProfile_lower_case subscriptions param req db reply :
  fst (getUserChannelProfile subscriptions param req db) = Return reply ->
  toLowerCase (ch_username (reply_data reply))
  = ch_username (reply_data reply).
Proof.
  unfold getUserChannelProfile.
  destruct param as [name|]; [|done].
  destruct (negb (truthy (Some (js_trim name)))); [done|]. run.
  unfold aggregate_channel.
  destruct (filter (fun u => username u = toLowerCase name) (users db))
    as [|u rest] eqn:Hfilter; [done|].
  assert (u ∈ filter (fun u => username u = toLowerCase name) (users db))
    as Hu by (rewrite Hfilter; left).
  apply list_elem_of_filter in Hu as [Hname _].
  simpl. intros [= <-]. simpl. rewrite Hname. apply toLowerCase_idempotent.
Qed.

End WatchAndChannel.

(** Witness of X17: alice's history. *)
Lemma getWatchHistory_contents_witness :
  exists res l,
    getWatchHistory (Demo.as_user Demo.alice) Demo.db0 = (Return res, Demo.db0)
    /\ res_status res = 200
    /\ res_body res
       = B_ApiResponse
           (new_ApiResponse 200 (D_watchHistory l)
              "Watch history fetched successfully")
    /\ (forall w,
          w ∈ l
          <-> exists v,
                v ∈ videos Demo.db0
                /\ video_id v ∈ watchHistory Demo.alice
                /\ wv_id w = video_id v
                /\ wv_title w = video_title v
                /\ wv_owner w
                   = project_owner
                       <$> User_findById (Some (video_owner v)) Demo.db0)
    /\ (forall id,
          id ∈ wv_id <$> l
          <-> id ∈ watchHistory Demo.alice
              /\ id ∈ video_id <$> videos Demo.db0)
    /\ (NoDup (video_id <$> videos Demo.db0) -> NoDup (wv_id <$> l)).
Proof.
  apply (getWatchHistory_contents (Demo.as_user Demo.alice) Demo.db0
           (select_public Demo.alice) Demo.alice); reflexivity.
Defined.


(** Witness of X20. *)
Lemma getUserChannelProfile_lower_case_witness :
  toLowerCase "bob" = "bob".
Proof.
  apply (getUserChannelProfile_lower_case DemoServices.subscriptions
           (Some "BOB") (Demo.as_user Demo.alice) Demo.db0
           (json_reply 200 200
              (channel_profile DemoServices.subscriptions (Some "a1") Demo.bob)
              "User channel fetched successfully")).
  reflexivity.
Defined.

(** ** The update controllers *)

Section Updates.
Context {P : Platform} {S : Services}.

Lemma findByIdAndUpdate_run id f db :
  User_findByIdAndUpdate (Some id) f db
  = (Return (User_findById (Some id)
               (set_users (updateOne (has_id id) f (users db)) db)),
     set_users (updateOne (has_id id) f (users db)) db).
Proof. unfold User_findByIdAndUpdate. by run. Qed.

Lemma deleteFromCloudinary_run publicURL db :
  deleteFromCloudinary publicURL db
  = (match cloudinary_destroy (getPublicIdFromUrl publicURL) with
     | inl e => Throw (Native e)
     | inr result => Return result
     end, db).
Proof.
  unfold deleteFromCloudinary. run.
  by destruct (cloudinary_destroy (getPublicIdFromUrl publicURL)).
Qed.

Lemma uploadOnCloudinary_run path db :
  path <> "" ->
  uploadOnCloudinary path db
  = (match cloudinary_upload path with
     | Some response => Return (Some response)
     | None =>
         match fs_unlinkSync path with
         | Some e => Throw (Native e)
         | None => Return None
         end
     end, db).
Proof.
  intros Hpath. unfold uploadOnCloudinary.
  assert (negb (truthy (Some path)) = false) as ->.
  { simpl. by destruct (String.eqb_spec path ""). }
  destruct (cloudinary_upload path); [done|].
  by destruct (fs_unlinkSync path).
Qed.

(** What a successful [updateUserAvatar] did. *)
Lemma updateUserAvatar_inv file req db reply db' :
  updateUserAvatar file req db = (Return reply, db') ->
  exists current f response url,
    req_user req = Some current
    /\ file = Some f
    /\ file_path f <> ""
    /\ (exists result,
          cloudinary_destroy (getPublicIdFromUrl (pub_avatar current))
          = inr result)
    /\ cloudinary_upload (file_path f) = Some response
    /\ cloud_url response = Some url
    /\ url <> ""
    /\ db' = set_users (updateOne (has_id (pub_id current)) (set_avatar url)
                          (users db)) db
    /\ reply = json_reply 200 200
                 (select_no_password
                    <$> User_findById (Some (pub_id current)) db')
                 "Avatar image updated successfully".
Proof.
  unfold updateUserAvatar.
  destruct file as [f|]; [|done].
  change (file_path <$> Some f) with (Some (file_path f)). cbv beta iota.
  destruct (negb (truthy (Some (file_path f)))) eqn:Hpath; [done|].
  assert (file_path f <> "") as Hne by (intros Heq; by rewrite Heq in Hpath).
  destruct (req_user req) as [current|]; [|done].
  unfold bind at 1. rewrite deleteFromCloudinary_run.
  destruct (cloudinary_destroy (getPublicIdFromUrl (pub_avatar current)))
    as [e|result] eqn:Hdestroy; [done|].
  unfold bind at 1. rewrite uploadOnCloudinary_run by done.
  destruct (cloudinary_upload (file_path f)) as [response|] eqn:Hupload.
  2: { by destruct (fs_unlinkSync (file_path f)). }
  destruct (cloud_url response) as [url|] eqn:Hurl; [|done].
  destruct (negb (truthy (Some url))) eqn:Htruthy; [done|].
  assert (url <> "") as Hurlne by (intros Heq; by rewrite Heq in Htruthy).
  unfold bind. rewrite findByIdAndUpdate_run. unfold ret.
  intros [= <- <-].
  exists current, f, response, url.
  repeat split; try done. by exists result.
Qed.

(** What a successful [updateUserCoverImage] did. *)
Lemma updateUserCoverImage_inv file req db reply db' :
  updateUserCoverImage file req db = (Return reply, db') ->
  exists current f response url,
    req_user req = Some current
    /\ file = Some f
    /\ cloudinary_upload (file_path f) = Some response
    /\ cloud_url response = Some url
    /\ db' = set_users (updateOne (has_id (pub_id current))
                          (set_coverImage url) (users db)) db
    /\ reply = json_reply 200 200
                 (select_no_password
                    <$> User_findById (Some (pub_id current)) db')
                 "Cover image updated successfully".
Proof.
  unfold updateUserCoverImage.
  destruct file as [f|]; [|done].
  change (file_path <$> Some f) with (Some (file_path f)). cbv beta iota.
  destruct (negb (truthy (Some (file_path f)))) eqn:Hpath; [done|].
  assert (file_path f <> "") as Hne by (intros Heq; by rewrite Heq in Hpath).
  destruct (req_user req) as [current|]; [|done].
  unfold bind at 1. rewrite deleteFromCloudinary_run.
  destruct (cloudinary_destroy (getPublicIdFromUrl (pub_coverImage current)))
    as [e|result] eqn:Hdestroy; [done|].
  unfold bind at 1. rewrite uploadOnCloudinary_run by done.
  destruct (cloudinary_upload (file_path f)) as [response|] eqn:Hupload.
  2: { by destruct (fs_unlinkSync (file_path f)). }
  destruct (cloud_url response) as [url|] eqn:Hurl; [|done].
  destruct (negb (truthy (Some url))) eqn:Htruthy; [done|].
  unfold bind. rewrite findByIdAndUpdate_run. unfold ret.
  intros [= <- <-].
  by exists current, f, response, url.
Qed.

(** X21. [updateUserAvatar] and [updateUserCoverImage] write only
    as their last step: whenever one of them throws, the database is
    as it was; without a file (or with an empty path) they throw their
    400 error. *)
Theorem update_image_rejection_writes_nothing file req db :
  (forall e, fst (updateUserAvatar file req db) = Throw e ->
             snd (updateUserAvatar file req db) = db)
  /\ (forall e, fst (updateUserCoverImage file req db) = Throw e ->
                snd (updateUserCoverImage file req db) = db)
  /\ (truthy (file_path <$> file) = false ->
      updateUserAvatar file req db
      = (Throw (ApiError 400 "Avatar file is missing"), db)
      /\ updateUserCoverImage file req db
         = (Throw (ApiError 400 "Cover image file is missing"), db)).
Proof.
  split; [|split].
  - intros e.
    destruct (updateUserAvatar file req db) as [[reply|e'] db'] eqn:Hrun;
      [done|]. intros _. revert Hrun. unfold updateUserAvatar.
    destruct file as [f|]; [|by intros [= _ <-]].
    change (file_path <$> Some f) with (Some (file_path f)). cbv beta iota.
    destruct (negb (truthy (Some (file_path f)))) eqn:Hpath;
      [by intros [= _ <-]|].
    assert (file_path f <> "") as Hne by (intros Heq; by rewrite Heq in Hpath).
    destruct (req_user req) as [current|]; [|by intros [= _ <-]].
    unfold bind at 1. rewrite deleteFromCloudinary_run.
    destruct (cloudinary_destroy _); [by intros [= _ <-]|].
    unfold bind at 1. rewrite uploadOnCloudinary_run by done.
    destruct (cloudinary_upload (file_path f)) as [response|].
    2: { destruct (fs_unlinkSync (file_path f)); by intros [= _ <-]. }
    destruct (cloud_url response) as [url|]; [|by intros [= _ <-]].
    destruct (negb (truthy (Some url))); [by intros [= _ <-]|].
    unfold bind. by rewrite findByIdAndUpdate_run.
  - intros e.
    destruct (updateUserCoverImage file req db) as [[reply|e'] db'] eqn:Hrun;
      [done|]. intros _. revert Hrun. unfold updateUserCoverImage.
    destruct file as [f|]; [|by intros [= _ <-]].
    change (file_path <$> Some f) with (Some (file_path f)). cbv beta iota.
    destruct (negb (truthy (Some (file_path f)))) eqn:Hpath;
      [by intros [= _ <-]|].
    assert (file_path f <> "") as Hne by (intros Heq; by rewrite Heq in Hpath).
    destruct (req_user req) as [current|]; [|by intros [= _ <-]].
    unfold bind at 1. rewrite deleteFromCloudinary_run.
    destruct (cloudinary_destroy _); [by intros [= _ <-]|].
    unfold bind at 1. rewrite uploadOnCloudinary_run by done.
    destruct (cloudinary_upload (file_path f)) as [response|].
    2: { destruct (fs_unlinkSync (file_path f)); by intros [= _ <-]. }
    destruct (cloud_url response) as [url|]; [|by intros [= _ <-]].
    destruct (negb (truthy (Some url))); [by intros [= _ <-]|].
    unfold bind. by rewrite findByIdAndUpdate_run.
  - intros Hfile. unfold updateUserAvatar, updateUserCoverImage.
    destruct file as [f|]; [|done]. simpl in *. by rewrite Hfile.
Qed.

(** X22. When the upload of the new image fails, so that
    [uploadOnCloudinary] answers [null], [updateUserAvatar] and
    [updateUserCoverImage] do not reach their 400 error: reading
    [url] of [null] throws a TypeError.  The old image has been handed
    to [deleteFromCloudinary] by then, and the database still names
    it. *)
Theorem update_image_upload_failure f req db current result :
  req_user req = Some current ->
  file_path f <> "" ->
  cloudinary_upload (file_path f) = None ->
  fs_unlinkSync (file_path f) = None ->
  (cloudinary_destroy (getPublicIdFromUrl (pub_avatar current)) = inr result ->
   updateUserAvatar (Some f) req db
   = (Throw (TypeError "Cannot read properties of null (reading 'url')"), db))
  /\ (cloudinary_destroy (getPublicIdFromUrl (pub_coverImage current))
      = inr result ->
      updateUserCoverImage (Some f) req db
      = (Throw (TypeError "Cannot read properties of null (reading 'url')"),
         db)).
Proof.
  intros Huser Hpath Hupload Hunlink.
  assert (negb (truthy (Some (file_path f))) = false) as Htruthy.
  { simpl. by destruct (String.eqb_spec (file_path f) ""). }
  split; intros Hdestroy.
  - unfold updateUserAvatar.
    change (file_path <$> Some f) with (Some (file_path f)). cbv beta iota.
    rewrite Htruthy, Huser.
    unfold bind at 1. rewrite deleteFromCloudinary_run, Hdestroy.
    unfold bind at 1. rewrite uploadOnCloudinary_run by done.
    by rewrite Hupload, Hunlink.
  - unfold updateUserCoverImage.
    change (file_path <$> Some f) with (Some (file_path f)). cbv beta iota.
    rewrite Htruthy, Huser.
    unfold bind at 1. rewrite deleteFromCloudinary_run, Hdestroy.
    unfold bind at 1. rewrite uploadOnCloudinary_run by done.
    by rewrite Hupload, Hunlink.
Qed.

(** X23. A successful [updateUserAvatar] had a file and a user, had
    the old image destroyed under the id that [getPublicIdFromUrl]
    reads off the old URL, and stores the URL that cloudinary answered
    for the new file as the avatar of that user's record.  The id, the
    username, the email, the full name, the cover image, the password,
    the refresh token and the watch history of that record are as they
    were, and so are the records of the other users and the videos. *)
Theorem updateUserAvatar_success file req db reply db' :
  updateUserAvatar file req db = (Return reply, db') ->
  exists current f response url,
    req_user req = Some current
    /\ file = Some f
    /\ cloudinary_upload (file_path f) = Some response
    /\ cloud_url response = Some url
    /\ (exists result,
          cloudinary_destroy (getPublicIdFromUrl (pub_avatar current))
          = inr result)
    /\ (forall u,
          User_findById (Some (pub_id current)) db = Some u ->
          exists u',
            User_findById (Some (pub_id current)) db' = Some u'
            /\ avatar u' = url
            /\ user_id u' = user_id u
            /\ username u' = username u
            /\ email u' = email u
            /\ fullName u' = fullName u
            /\ coverImage u' = coverImage u
            /\ password u' = password u
            /\ refreshToken u' = refreshToken u
            /\ watchHistory u' = watchHistory u)
    /\ (forall id, id <> pub_id current ->
          User_findById (Some id) db' = User_findById (Some id) db)
    /\ videos db' = videos db
    /\ reply_status reply = 200.
Proof.
  intros Hrun. apply updateUserAvatar_inv in Hrun
    as (current & f & response & url & Huser & -> & _ & Hdestroy & Hupload
        & Hurl & _ & -> & ->).
  exists current, f, response, url. repeat split; try done.
  - intros u Hu. simpl in *. rewrite find_updateOne_same by done.
    rewrite Hu. by eexists.
  - intros id Hid. simpl. by apply find_updateOne_other.
Qed.

(** X24. A failure to destroy the old image stops the update: the
    handler throws what cloudinary threw and nothing is written.  For
    a user whose cover image is the empty string, the id that
    [updateUserCoverImage] asks to destroy is the empty string. *)
Theorem update_image_destroy_failure f req db current e :
  req_user req = Some current ->
  file_path f <> "" ->
  (cloudinary_destroy (getPublicIdFromUrl (pub_avatar current)) = inl e ->
   updateUserAvatar (Some f) req db = (Throw (Native e), db))
  /\ (cloudinary_destroy (getPublicIdFromUrl (pub_coverImage current)) = inl e ->
      updateUserCoverImage (Some f) req db = (Throw (Native e), db))
  /\ (pub_coverImage current = "" ->
      cloudinary_destroy "" = inl e ->
      updateUserCoverImage (Some f) req db = (Throw (Native e), db)).
Proof.
  intros Huser Hpath.
  assert (negb (truthy (Some (file_path f))) = false) as Htruthy.
  { simpl. by destruct (String.eqb_spec (file_path f) ""). }
  assert (forall e',
            cloudinary_destroy (getPublicIdFromUrl (pub_coverImage current))
            = inl e' ->
            updateUserCoverImage (Some f) req db = (Throw (Native e'), db))
    as Hcover.
  { intros e' Hdestroy.
    unfold updateUserCoverImage.
    change (file_path <$> Some f) with (Some (file_path f)). cbv beta iota.
    rewrite Htruthy, Huser.
    unfold bind at 1. by rewrite deleteFromCloudinary_run, Hdestroy. }
  split; [|split].
  - intros Hdestroy.
    unfold updateUserAvatar.
    change (file_path <$> Some f) with (Some (file_path f)). cbv beta iota.
    rewrite Htruthy, Huser.
    unfold bind at 1. by rewrite deleteFromCloudinary_run, Hdestroy.
  - apply Hcover.
  - intros Hempty Hdestroy. apply Hcover. by rewrite Hempty.
Qed.

(** X26. The records that [updateAccountDetails], [updateUserAvatar]
    and [updateUserCoverImage] answer a request of a user with are read
    with the password left out only: the refresh token in the answer is
    the one that is stored for the user. *)
Theorem update_answers_carry_refresh_token file req db reply db' account :
  is_Some (req_user req) ->
  updateAccountDetails req db = (Return reply, db')
  \/ updateUserAvatar file req db = (Return reply, db')
  \/ updateUserCoverImage file req db = (Return reply, db') ->
  reply_data reply = Some account ->
  acc_refreshToken account = stored_token (acc_id account) db'.
Proof.
  intros [viewer Hviewer] Hrun Hdata.
  assert (exists id,
             reply_data reply
             = select_no_password <$> User_findById (Some id) db')
    as [id Hreply].
  { destruct Hrun as [Hrun|[Hrun|Hrun]].
    - revert Hrun. unfold updateAccountDetails.
      destruct (req_body req !! "fullName") as [name|]; [|done].
      destruct (req_body req !! "email") as [mail|]; [|done].
      destruct (negb _ || negb _); [done|].
      rewrite Hviewer.
      change (pub_id <$> Some viewer) with (Some (pub_id viewer)).
      unfold bind. rewrite findByIdAndUpdate_run. unfold ret.
      intros [= <- <-]. by exists (pub_id viewer).
    - apply updateUserAvatar_inv in Hrun
        as (current & f & response & url & _ & _ & _ & _ & _ & _ & _ & _ & ->).
      by exists (pub_id current).
    - apply updateUserCoverImage_inv in Hrun
        as (current & f & response & url & _ & _ & _ & _ & _ & ->).
      by exists (pub_id current). }
  rewrite Hdata in Hreply. unfold stored_token.
  destruct (User_findById (Some id) db') as [u|] eqn:Hu; [|done].
  injection Hreply as ->.
  change (acc_id (select_no_password u)) with (user_id u).
  by rewrite (findById_again _ _ _ Hu).
Qed.

(** X27. With an old password that does not match,
    [changeCurrentPassword] throws its 400 error and writes nothing. *)
Theorem changeCurrentPassword_wrong_old req db current user :
  req_user req = Some current ->
  User_findById (Some (pub_id current)) db = Some user ->
  isPasswordCorrect user (req_body req !! "oldPassword") = inr false ->
  changeCurrentPassword req db
  = (Throw (ApiError 400 "Invalid old password"), db).
Proof.
  intros Huser Hfind Hold. unfold changeCurrentPassword. run.
  rewrite Huser.
  change (pub_id <$> Some current) with (Some (pub_id current)).
  rewrite Hfind, Hold. done.
Qed.

(** X28. A successful [changeCurrentPassword] found the user, had
    the old password accepted and stores what [save] makes of the new
    one.  It answers with the new password in clear, and it leaves
    every stored refresh token in place: the sessions that were open
    stay open. *)
Theorem changeCurrentPassword_success req db reply db' :
  changeCurrentPassword req db = (Return reply, db') ->
  exists user stored,
    User_findById (pub_id <$> req_user req) db = Some user
    /\ isPasswordCorrect user (req_body req !! "oldPassword") = inr true
    /\ save_password user (req_body req !! "newPassword") = inr stored
    /\ User_findById (Some (user_id user)) db' = Some (set_password stored user)
    /\ reply_data reply
       = "your new password is "
           +:+ default "undefined" (req_body req !! "newPassword")
    /\ forall id, stored_token id db' = stored_token id db.
Proof.
  unfold changeCurrentPassword. run.
  destruct (User_findById (pub_id <$> req_user req) db) as [user|] eqn:Hfind;
    [|done].
  destruct (isPasswordCorrect user (req_body req !! "oldPassword"))
    as [e|[|]] eqn:Hold; run; [done| |done]. simpl.
  destruct (save_password user (req_body req !! "newPassword"))
    as [e|stored] eqn:Hsave; run; [done|].
  intros [= <- <-]. exists user, stored.
  split; [done|]. split; [done|]. split; [done|].
  pose proof (findById_again _ _ _ Hfind) as Hagain.
  split; [|split; [done|]].
  - simpl. rewrite find_updateOne_same by done.
    simpl in Hagain. by rewrite Hagain.
  - intros id. unfold stored_token. simpl.
    destruct (decide (id = user_id user)) as [->|Hne].
    + rewrite find_updateOne_same by done.
      by destruct (List.find (has_id (user_id user)) (users db)).
    + by rewrite find_updateOne_other.
Qed.

End Updates.

(** ** The update controllers on the example platform *)

(** Witness of X22: cloudinary is out of reach when alice sends a new
    avatar. *)
Lemma update_image_upload_failure_witness :
  updateUserAvatar (P:=offline_platform) (S:=DemoServices.services)
    (Some (Demo.upload "n.png")) (Demo.as_user Demo.alice) Demo.db0
  = (Throw (TypeError "Cannot read properties of null (reading 'url')"),
     Demo.db0).
Proof.
  apply (proj1 (update_image_upload_failure (P:=offline_platform)
                  (S:=DemoServices.services) (Demo.upload "n.png")
                  (Demo.as_user Demo.alice) Demo.db0
                  (select_public Demo.alice) "ok"
                  eq_refl ltac:(done) eq_refl eq_refl)).
  reflexivity.
Defined.

(** Witness of X23: alice sends a new avatar. *)
Lemma updateUserAvatar_success_witness :
  exists reply db',
    updateUserAvatar (P:=Demo.platform) (S:=DemoServices.services)
      (Some (Demo.upload "n.png")) (Demo.as_user Demo.alice) Demo.db0
    = (Return reply, db')
    /\ avatar <$> User_findById (Some "a1") db'
       = Some "http://res.cloudinary.com/demopublic/temp/n.png"
    /\ User_findById (Some "b2") db' = Some Demo.bob.
Proof.
  destruct (updateUserAvatar (P:=Demo.platform) (S:=DemoServices.services)
              (Some (Demo.upload "n.png")) (Demo.as_user Demo.alice) Demo.db0)
    as [[reply|e] db'] eqn:Hrun; [|vm_compute in Hrun; discriminate Hrun].
  exists reply, db'. split; [done|].
  destruct (updateUserAvatar_success (P:=Demo.platform)
              (S:=DemoServices.services) _ _ _ _ _ Hrun)
    as (current & f & response & url & [= <-] & [= <-] & Hupload & Hurl & _
        & Hrecord & Hothers & _).
  vm_compute in Hupload. injection Hupload as <-.
  vm_compute in Hurl. injection Hurl as <-.
  split.
  - destruct (Hrecord Demo.alice eq_refl) as (u' & Hu' & Havatar & _).
    change (pub_id (select_public Demo.alice)) with "a1" in Hu'.
    rewrite Hu'. simpl. by rewrite Havatar.
  - rewrite (Hothers "b2"); [reflexivity|done].
Defined.

(** Witness of X24: bob, whose cover image is the empty string, sends
    a cover image. *)
Lemma update_image_destroy_failure_witness :
  updateUserCoverImage (P:=Demo.platform) (S:=DemoServices.services)
    (Some (Demo.upload "bg.png")) (Demo.as_user Demo.bob) Demo.db0
  = (Throw (Native {| err_name := "Error";
                      err_message := "Missing required parameter - public_id" |}),
     Demo.db0).
Proof.
  apply (proj2 (proj2 (update_image_destroy_failure (P:=Demo.platform)
                         (S:=DemoServices.services) (Demo.upload "bg.png")
                         (Demo.as_user Demo.bob) Demo.db0
                         (select_public Demo.bob) _
                         eq_refl ltac:(done)))); reflexivity.
Defined.

(** Witness of X26: the answer to alice, logged in, when she changes
    her account details. *)
Lemma update_answers_carry_refresh_token_witness :
  exists reply db' account,
    updateAccountDetails (S:=DemoServices.services)
      (account_request "Alice B" "alice@example.com" Demo.alice) Demo.db1
    = (Return reply, db')
    /\ reply_data reply = Some account
    /\ acc_refreshToken account = Some "refresh.a1.100".
Proof.
  destruct (updateAccountDetails (S:=DemoServices.services)
              (account_request "Alice B" "alice@example.com" Demo.alice)
              Demo.db1)
    as [[reply|e] db'] eqn:Hrun; [|vm_compute in Hrun; discriminate Hrun].
  pose proof (fun account =>
                update_answers_carry_refresh_token (P:=Demo.platform)
                  (S:=DemoServices.services) None
                  (account_request "Alice B" "alice@example.com" Demo.alice)
                  Demo.db1 reply db' account
                  (ex_intro _ _ eq_refl) (or_introl Hrun)) as Hcarry.
  vm_compute in Hrun. injection Hrun as <- <-.
  eexists _, _, _. split; [reflexivity|]. split; [reflexivity|].
  rewrite (Hcarry _ eq_refl). vm_compute. reflexivity.
Defined.

(** Witness of X27: alice gives a wrong old password. *)
Lemma changeCurrentPassword_wrong_old_witness :
  changeCurrentPassword (P:=Demo.platform) (S:=DemoServices.services)
    (change_password_request "builder" "rabbit" Demo.alice) Demo.db0
  = (Throw (ApiError 400 "Invalid old password"), Demo.db0).
Proof.
  apply (changeCurrentPassword_wrong_old (P:=Demo.platform)
           (S:=DemoServices.services)
           (change_password_request "builder" "rabbit" Demo.alice) Demo.db0
           (select_public Demo.alice) Demo.alice); reflexivity.
Defined.

(** Witness of X28: alice, logged in, changes her password. *)
Lemma changeCurrentPassword_success_witness :
  exists reply db',
    changeCurrentPassword (P:=Demo.platform) (S:=DemoServices.services)
      (change_password_request "wonderland" "rabbit" Demo.alice) Demo.db1
    = (Return reply, db')
    /\ reply_data reply = "your new password is rabbit"
    /\ stored_token "a1" db' = Some "refresh.a1.100".
Proof.
  destruct (changeCurrentPassword (P:=Demo.platform) (S:=DemoServices.services)
              (change_password_request "wonderland" "rabbit" Demo.alice)
              Demo.db1)
    as [[reply|e] db'] eqn:Hrun; [|vm_compute in Hrun; discriminate Hrun].
  exists reply, db'. split; [done|].
  destruct (changeCurrentPassword_success (P:=Demo.platform)
              (S:=DemoServices.services) _ _ _ _ Hrun)
    as (user & stored & _ & _ & _ & _ & Hdata & Htokens).
  split; [exact Hdata|]. rewrite Htokens. reflexivity.
Defined.
